(** * SSL security-connector utilities (ssl_utils.cc)

    A shallow embedding of
    [src/core/lib/security/security_connector/ssl_utils.cc]:
    the peer-identity extractor [grpc_ssl_peer_to_auth_context], the shallow
    peer reconstructor [grpc_shallow_peer_from_ssl_auth_context], the name
    matcher [grpc_ssl_host_matches_name], the call-host check
    [grpc_ssl_check_call_host], the client handshaker-factory builder and the
    default root store [DefaultSslRootStore].

    Conventions.
    - A C string ([const char*]) is a [string]; a nullable one is an
      [option string].  A byte buffer given by pointer and length is a
      [list byte].
    - A heap array is a list of slots; a slot that [gpr_malloc] returned and
      nobody wrote yet is [None].  Reading or writing outside the array, or
      reading an unwritten slot, is [Undefined].
    - A failed [GPR_ASSERT] is [Aborts].
    - File-level statics and the calls made to collaborators outside this file
      are threaded through the [world] of the monad [M]. *)

From Stdlib Require Import ZArith Lia.
From Stdlib.Strings Require Import String Ascii Byte.
From stdpp Require Import base option list strings.

Open Scope string_scope.
Open Scope list_scope.
Open Scope nat_scope.

#[global] Instance byte_eq_decision : EqDecision byte := Byte.byte_eq_dec.

(** ** Outcomes of a C computation *)

Inductive outcome (A : Type) : Type :=
| Returns (a : A)
| Aborts (what : string)
| Undefined.
Arguments Returns {A} a.
Arguments Aborts {A} what.
Arguments Undefined {A}.

(** [outcome] is a monad; sequencing is written with stdpp's [x ← m; k]. *)
#[global] Instance outcome_ret : MRet outcome := fun A a => Returns a.
#[global] Instance outcome_bind : MBind outcome := fun A B k m =>
  match m with
  | Returns a => k a
  | Aborts what => Aborts what
  | Undefined => Undefined
  end.

(** [GPR_ASSERT(cond)], the condition written as in the source. *)
Definition GPR_ASSERT (cond : bool) (text : string) : outcome unit :=
  if cond then Returns tt else Aborts text.

(** ** C library *)

(** [strcmp]: only the sign of the result is specified by C. *)
Definition strcmp (s1 s2 : string) : Z :=
  match String.compare s1 s2 with
  | Eq => 0
  | Lt => -1
  | Gt => 1
  end%Z.

Definition strlen (s : string) : nat := String.length s.

(** ** Property names

    The ten string constants come from headers that are not part of this file
    ([grpc_security_constants.h], [ssl_transport_security.h]); they are taken
    as parameters.  [grpc_header_names] below gives the values of the released
    headers. *)

Class property_names : Type := {
  TSI_X509_SUBJECT_COMMON_NAME_PEER_PROPERTY : string;
  TSI_X509_SUBJECT_ALTERNATIVE_NAME_PEER_PROPERTY : string;
  TSI_X509_PEM_CERT_PROPERTY : string;
  TSI_SSL_SESSION_REUSED_PEER_PROPERTY : string;
  GRPC_TRANSPORT_SECURITY_TYPE_PROPERTY_NAME : string;
  GRPC_SSL_TRANSPORT_SECURITY_TYPE : string;
  GRPC_X509_CN_PROPERTY_NAME : string;
  GRPC_X509_SAN_PROPERTY_NAME : string;
  GRPC_X509_PEM_CERT_PROPERTY_NAME : string;
  GRPC_SSL_SESSION_REUSED_PROPERTY : string
}.

Definition grpc_header_names : property_names := {|
  TSI_X509_SUBJECT_COMMON_NAME_PEER_PROPERTY := "x509_subject_common_name";
  TSI_X509_SUBJECT_ALTERNATIVE_NAME_PEER_PROPERTY :=
    "x509_subject_alternative_name";
  TSI_X509_PEM_CERT_PROPERTY := "x509_pem_cert";
  TSI_SSL_SESSION_REUSED_PEER_PROPERTY := "ssl_session_reused";
  GRPC_TRANSPORT_SECURITY_TYPE_PROPERTY_NAME := "transport_security_type";
  GRPC_SSL_TRANSPORT_SECURITY_TYPE := "ssl";
  GRPC_X509_CN_PROPERTY_NAME := "x509_common_name";
  GRPC_X509_SAN_PROPERTY_NAME := "x509_subject_alternative_name";
  GRPC_X509_PEM_CERT_PROPERTY_NAME := "x509_pem_cert";
  GRPC_SSL_SESSION_REUSED_PROPERTY := "ssl_session_reused"
|}.

(** The four peer-property names the extractor's [strcmp] chain tells apart. *)
Definition tsi_names_distinct (K : property_names) : Prop :=
  NoDup [ TSI_X509_SUBJECT_COMMON_NAME_PEER_PROPERTY;
          TSI_X509_SUBJECT_ALTERNATIVE_NAME_PEER_PROPERTY;
          TSI_X509_PEM_CERT_PROPERTY;
          TSI_SSL_SESSION_REUSED_PEER_PROPERTY ].

(** The five context-property names the extractor writes. *)
Definition grpc_names_distinct (K : property_names) : Prop :=
  NoDup [ GRPC_X509_SAN_PROPERTY_NAME;
          GRPC_X509_CN_PROPERTY_NAME;
          GRPC_X509_PEM_CERT_PROPERTY_NAME;
          GRPC_SSL_SESSION_REUSED_PROPERTY;
          GRPC_TRANSPORT_SECURITY_TYPE_PROPERTY_NAME ].

(** ** Peers (transport_security_interface.h) *)

(** [tsi_peer_property]: [name] is a nullable C string, [value] is the buffer
    [value.data] of [value.length] bytes. *)
Record tsi_peer_property : Type := {
  tsi_name : option string;
  tsi_value : list byte
}.

(** [tsi_peer]: [properties] is [None] for [nullptr], otherwise the array it
    points to. *)
Record tsi_peer : Type := {
  properties : option (list (option tsi_peer_property));
  property_count : nat
}.

(** [peer->properties[i]] *)
Definition tsi_peer_property_at (peer : tsi_peer) (i : nat)
  : outcome tsi_peer_property :=
  match properties peer with
  | None => Undefined
  | Some arr =>
      match arr !! i with
      | Some (Some prop) => Returns prop
      | _ => Undefined
      end
  end.

(** The peer an engine hands out for a list of properties: the array holds
    exactly the properties. *)
Definition tsi_peer_of (props : list tsi_peer_property) : tsi_peer :=
  {| properties := Some (Some <$> props); property_count := length props |}.

(** Number of array slots behind [peer->properties]. *)
Definition allocated_slots (peer : tsi_peer) : nat :=
  match properties peer with
  | None => 0
  | Some arr => length arr
  end.

(** What a reader of the peer sees: the first [property_count] entries of the
    array, when they are all there and written. *)
Definition tsi_peer_view (peer : tsi_peer) : option (list tsi_peer_property) :=
  match properties peer with
  | None => if decide (property_count peer = 0) then Some [] else None
  | Some arr =>
      if decide (property_count peer ≤ length arr)
      then mapM id (take (property_count peer) arr)
      else None
  end.

(** ** Auth contexts (security_context.h) *)

(** [grpc_auth_property]: [value] holds [value_length] bytes. *)
Record grpc_auth_property : Type := {
  auth_name : string;
  auth_value : list byte
}.

(** Modelled from the spec: the auth context of security_context.h, which
    "owns an ordered collection of (name, value) properties ... plus at most
    one designated peer identity property name".  The context is built here
    with a null chained context, so only its own properties are kept. *)
Record grpc_auth_context : Type := {
  auth_properties : list grpc_auth_property;
  peer_identity_property_name : option string
}.

(** Modelled from the spec: [MakeRefCounted<grpc_auth_context>(nullptr)], a new
    context with no property and no designated identity. *)
Definition new_grpc_auth_context : grpc_auth_context :=
  {| auth_properties := []; peer_identity_property_name := None |}.

(** Modelled from the spec: [grpc_auth_context_add_property] appends a copy of
    the [(name, value)] pair to the ordered collection. *)
Definition grpc_auth_context_add_property (ctx : grpc_auth_context)
    (name : string) (value : list byte) : grpc_auth_context :=
  {| auth_properties :=
       auth_properties ctx ++ [ {| auth_name := name; auth_value := value |} ];
     peer_identity_property_name := peer_identity_property_name ctx |}.

(** Modelled from the spec: [grpc_auth_context_add_cstring_property] is
    [grpc_auth_context_add_property] with the bytes of a C string. *)
Definition grpc_auth_context_add_cstring_property (ctx : grpc_auth_context)
    (name : string) (value : string) : grpc_auth_context :=
  grpc_auth_context_add_property ctx name (list_byte_of_string value).

(** Modelled from the spec: [grpc_auth_context_set_peer_identity_property_name]
    designates [name] and answers 1 when "the designated name ... reference[s]
    a property actually present"; otherwise it answers 0 and designates
    nothing. *)
Definition grpc_auth_context_set_peer_identity_property_name
    (ctx : grpc_auth_context) (name : string) : Z * grpc_auth_context :=
  if existsb (fun p => String.eqb (auth_name p) name) (auth_properties ctx)
  then (1%Z, {| auth_properties := auth_properties ctx;
                peer_identity_property_name := Some name |})
  else (0%Z, ctx).

(** Modelled from the spec: a [grpc_auth_property_iterator] walks the ordered
    collection; it is the list of properties not yet visited. *)
Definition grpc_auth_property_iterator : Type := list grpc_auth_property.

Definition grpc_auth_context_property_iterator (ctx : grpc_auth_context)
  : grpc_auth_property_iterator := auth_properties ctx.

(** Modelled from the spec: [grpc_auth_property_iterator_next] answers the next
    property, or [nullptr] at the end, and advances. *)
Definition grpc_auth_property_iterator_next (it : grpc_auth_property_iterator)
  : option grpc_auth_property * grpc_auth_property_iterator :=
  match it with
  | [] => (None, [])
  | prop :: rest => (Some prop, rest)
  end.

(** ** Peer identity extractor *)

Section PeerToAuthContext.
Context {K : property_names}.

(** The body of the [for] loop of [grpc_ssl_peer_to_auth_context] for one
    property; the state is the local [peer_identity_property_name] and the
    context under construction. *)
Definition peer_to_auth_context_step (prop : tsi_peer_property)
    (st : option string * grpc_auth_context)
  : option string * grpc_auth_context :=
  let '(identity, ctx) := st in
  match tsi_name prop with
  | None => (identity, ctx)
  | Some name =>
      if (strcmp name TSI_X509_SUBJECT_COMMON_NAME_PEER_PROPERTY =? 0)%Z then
        (* If there is no subject alt name, have the CN as the identity. *)
        (match identity with
         | None => Some GRPC_X509_CN_PROPERTY_NAME
         | Some _ => identity
         end,
         grpc_auth_context_add_property ctx GRPC_X509_CN_PROPERTY_NAME
           (tsi_value prop))
      else if (strcmp name TSI_X509_SUBJECT_ALTERNATIVE_NAME_PEER_PROPERTY
               =? 0)%Z then
        (Some GRPC_X509_SAN_PROPERTY_NAME,
         grpc_auth_context_add_property ctx GRPC_X509_SAN_PROPERTY_NAME
           (tsi_value prop))
      else if (strcmp name TSI_X509_PEM_CERT_PROPERTY =? 0)%Z then
        (identity,
         grpc_auth_context_add_property ctx GRPC_X509_PEM_CERT_PROPERTY_NAME
           (tsi_value prop))
      else if (strcmp name TSI_SSL_SESSION_REUSED_PEER_PROPERTY =? 0)%Z then
        (identity,
         grpc_auth_context_add_property ctx GRPC_SSL_SESSION_REUSED_PROPERTY
           (tsi_value prop))
      else (identity, ctx)
  end.

(** [for (i = ...; i < peer->property_count; i++)], with [todo] iterations
    left. *)
Fixpoint peer_to_auth_context_loop (peer : tsi_peer) (todo i : nat)
    (st : option string * grpc_auth_context)
  : outcome (option string * grpc_auth_context) :=
  match todo with
  | O => Returns st
  | S todo' =>
      prop ← tsi_peer_property_at peer i;
      peer_to_auth_context_loop peer todo' (S i)
        (peer_to_auth_context_step prop st)
  end.

Definition grpc_ssl_peer_to_auth_context (peer : tsi_peer)
  : outcome grpc_auth_context :=
  (* The caller has checked the certificate type property. *)
  _ ← GPR_ASSERT (1 <=? property_count peer)%nat
                       "peer->property_count >= 1";
  let ctx := new_grpc_auth_context in
  let ctx := grpc_auth_context_add_cstring_property ctx
               GRPC_TRANSPORT_SECURITY_TYPE_PROPERTY_NAME
               GRPC_SSL_TRANSPORT_SECURITY_TYPE in
  '(identity, ctx) ←
    peer_to_auth_context_loop peer (property_count peer) 0 (None, ctx);
  match identity with
  | Some name =>
      let '(rc, ctx) :=
        grpc_auth_context_set_peer_identity_property_name ctx name in
      _ ← GPR_ASSERT (rc =? 1)%Z
        "grpc_auth_context_set_peer_identity_property_name(...) == 1";
      Returns ctx
  | None => Returns ctx
  end.

(** ** Shallow peer reconstructor *)

(** [peer->properties[peer->property_count++] = ...] *)
Definition add_shallow_auth_property_to_peer (peer : tsi_peer)
    (prop : grpc_auth_property) (tsi_prop_name : string) : outcome tsi_peer :=
  match properties peer with
  | None => Undefined
  | Some arr =>
      if decide (property_count peer < length arr) then
        Returns
          {| properties :=
               Some (<[ property_count peer :=
                          Some {| tsi_name := Some tsi_prop_name;
                                  tsi_value := auth_value prop |} ]> arr);
             property_count := S (property_count peer) |}
      else Undefined
  end.

(** First pass: [while (grpc_auth_property_iterator_next(&it) != nullptr)
    max_num_props++;] *)
Fixpoint count_auth_properties (it : grpc_auth_property_iterator)
    (max_num_props : nat) : nat :=
  match it with
  | [] => max_num_props
  | _ :: it' => count_auth_properties it' (S max_num_props)
  end.

(** Second pass: the body of the [while] loop for one property. *)
Definition shallow_peer_step (prop : grpc_auth_property) (peer : tsi_peer)
  : outcome tsi_peer :=
  if (strcmp (auth_name prop) GRPC_X509_SAN_PROPERTY_NAME =? 0)%Z then
    add_shallow_auth_property_to_peer peer prop
      TSI_X509_SUBJECT_ALTERNATIVE_NAME_PEER_PROPERTY
  else if (strcmp (auth_name prop) GRPC_X509_CN_PROPERTY_NAME =? 0)%Z then
    add_shallow_auth_property_to_peer peer prop
      TSI_X509_SUBJECT_COMMON_NAME_PEER_PROPERTY
  else if (strcmp (auth_name prop) GRPC_X509_PEM_CERT_PROPERTY_NAME =? 0)%Z
  then
    add_shallow_auth_property_to_peer peer prop TSI_X509_PEM_CERT_PROPERTY
  else Returns peer.

(** Second pass: [while ((prop = grpc_auth_property_iterator_next(&it)) !=
    nullptr) ...]; the match on the iterator is
    [grpc_auth_property_iterator_next]. *)
Fixpoint shallow_peer_loop (it : grpc_auth_property_iterator)
    (peer : tsi_peer) : outcome tsi_peer :=
  match it with
  | [] => Returns peer
  | prop :: it' =>
      peer' ← shallow_peer_step prop peer;
      shallow_peer_loop it' peer'
  end.

Definition grpc_shallow_peer_from_ssl_auth_context
    (auth_context : grpc_auth_context) : outcome tsi_peer :=
  let max_num_props :=
    count_auth_properties
      (grpc_auth_context_property_iterator auth_context) 0 in
  (* memset(&peer, 0, sizeof(peer)) *)
  let peer := {| properties := None; property_count := 0 |} in
  if decide (0 < max_num_props) then
    let peer := {| properties := Some (replicate max_num_props None);
                   property_count := property_count peer |} in
    shallow_peer_loop (grpc_auth_context_property_iterator auth_context) peer
  else Returns peer.

(** [grpc_shallow_peer_destruct]: frees the array, if any; the peer is not
    used afterwards. *)
Definition grpc_shallow_peer_destruct (peer : tsi_peer) : unit := tt.

End PeerToAuthContext.

(** ** Errors and statuses (error.h, security_connector.h) *)

(** A [grpc_error*]: [GRPC_ERROR_NONE] or an error created from a message. *)
Inductive grpc_error : Type :=
| GRPC_ERROR_NONE
| GRPC_ERROR_CREATE (msg : string).

Definition GRPC_ERROR_CREATE_FROM_STATIC_STRING (msg : string) : grpc_error :=
  GRPC_ERROR_CREATE msg.

Inductive grpc_security_status : Type :=
| GRPC_SECURITY_OK
| GRPC_SECURITY_ERROR.

#[global] Instance grpc_error_eq_dec : EqDecision grpc_error.
Proof. solve_decision. Defined.
#[global] Instance grpc_security_status_eq_dec :
  EqDecision grpc_security_status.
Proof. solve_decision. Defined.

(** ** grpc_core::StringView *)

(** [StringView::empty()] *)
Definition StringView_empty (s : string) : bool :=
  match s with
  | EmptyString => true
  | String _ _ => false
  end.

(** [StringView::find(c)]; [None] is [npos]. *)
Fixpoint StringView_find (c : ascii) (s : string) : option nat :=
  match s with
  | EmptyString => None
  | String a s' =>
      if Ascii.eqb a c then Some 0
      else match StringView_find c s' with
           | Some i => Some (S i)
           | None => None
           end
  end.

(** [StringView::remove_suffix(n)] *)
Definition StringView_remove_suffix (n : nat) (s : string) : string :=
  substring 0 (String.length s - n) s.

(** ** Name matcher *)

Section NameMatcher.
(** [grpc_core::SplitHostPort] (host_port.h), applied to two empty output
    views: the host and the port it leaves in them.  Its boolean result is
    not used in this file. *)
Variable SplitHostPort : string -> string * string.
(** [tsi_ssl_peer_matches_name] (ssl_transport_security.h), the engine's
    name matching. *)
Variable tsi_ssl_peer_matches_name : tsi_peer -> string -> Z.

Definition grpc_ssl_host_matches_name (peer : tsi_peer) (peer_name : string)
  : Z :=
  let '(allocated_name, ignored_port) := SplitHostPort peer_name in
  if StringView_empty allocated_name then 0%Z
  else
    (* IPv6 zone-id should not be included in comparisons. *)
    let zone_id := StringView_find "%"%char allocated_name in
    let allocated_name :=
      match zone_id with
      | Some zone_id =>
          StringView_remove_suffix
            (String.length allocated_name - zone_id) allocated_name
      | None => allocated_name
      end in
    tsi_ssl_peer_matches_name peer allocated_name.

Definition grpc_ssl_check_alpn (peer : tsi_peer) : grpc_error :=
  GRPC_ERROR_NONE.


Context {K : property_names}.

(** The local [status] of [grpc_ssl_check_call_host] once both tests have
    run, for the shallow peer [peer]. *)
Definition call_host_status (peer : tsi_peer)
    (host target_name overridden_target_name : string)
  : grpc_security_status :=
  let status := GRPC_SECURITY_ERROR in
  let status :=
    if (grpc_ssl_host_matches_name peer host =? 0)%Z then status
    else GRPC_SECURITY_OK in
  let status :=
    if negb (StringView_empty overridden_target_name)
       && String.eqb host target_name
    then GRPC_SECURITY_OK else status in
  status.

(** [grpc_ssl_check_call_host]; [error] is the value behind the output
    parameter before the call, the second component of the result is the
    value behind it after the call.  [on_call_host_checked] is not used by
    the source. *)
Definition grpc_ssl_check_call_host
    (host target_name overridden_target_name : string)
    (auth_context : grpc_auth_context) (error : grpc_error)
  : outcome (bool * grpc_error) :=
  peer ← grpc_shallow_peer_from_ssl_auth_context auth_context;
  let status :=
    call_host_status peer host target_name overridden_target_name in
  let error :=
    if decide (status ≠ GRPC_SECURITY_OK) then
      GRPC_ERROR_CREATE_FROM_STATIC_STRING
        "call host does not match SSL server name"
    else error in
  let _ := grpc_shallow_peer_destruct peer in
  Returns (true, error).

End NameMatcher.

(** Modelled from the spec: [grpc_core::SplitHostPort] of host_port.h, which
    "parses a host[:port] or bracketed-IPv6 string; on malformed input returns
    the original string as host with an empty port (never fails)".  A bracketed
    host is the text between the brackets and may be followed by [:port]; an
    unbracketed name is split at its colon when it has exactly one. *)
Definition SplitHostPort_spec (name : string) : string * string :=
  match name with
  | String "["%char rest =>
      match StringView_find "]"%char rest with
      | None => (name, "")
      | Some rbracket =>
          let host := substring 0 rbracket rest in
          match substring (S rbracket) (String.length rest - S rbracket) rest
          with
          | EmptyString => (host, "")
          | String ":"%char port => (host, port)
          | String _ _ => (name, "")
          end
      end
  | _ =>
      match StringView_find ":"%char name with
      | None => (name, "")
      | Some colon =>
          let port :=
            substring (S colon) (String.length name - S colon) name in
          match StringView_find ":"%char port with
          | None => (substring 0 colon name, port)
          | Some _ => (name, "")
          end
      end
  end.

(** The spec's [stripZoneId]: "truncates at the first [%] character if
    present". *)
Definition stripZoneId (host : string) : string :=
  match StringView_find "%"%char host with
  | Some i => substring 0 i host
  | None => host
  end.

(** The name matcher as the spec words it: split, strip the zone id, answer
    false when the resulting host is empty, otherwise ask the engine. *)
Definition hostMatchesPeerName_spec (SplitHostPort : string -> string * string)
    (peerMatchesName : tsi_peer -> string -> Z)
    (peer : tsi_peer) (requestedName : string) : Z :=
  let host := stripZoneId (fst (SplitHostPort requestedName)) in
  if StringView_empty host then 0%Z else peerMatchesName peer host.

(** An engine that accepts a name exactly when the peer shows a subject
    alternative name with these bytes. *)
Definition exact_san_engine (peer : tsi_peer) (name : string) : Z :=
  match tsi_peer_view peer with
  | Some props =>
      if existsb
           (fun p =>
              bool_decide (tsi_name p = Some "x509_subject_alternative_name")
              && bool_decide (tsi_value p = list_byte_of_string name))
           props
      then 1%Z else 0%Z
  | None => 0%Z
  end.

(** An engine that accepts no name. *)
Definition rejecting_engine (peer : tsi_peer) (name : string) : Z := 0%Z.

(** ** Slices (slice.h) *)

Definition grpc_slice : Type := list byte.

Definition grpc_empty_slice : grpc_slice := [].

Definition GRPC_SLICE_IS_EMPTY (s : grpc_slice) : bool :=
  (length s =? 0)%nat.

(** [reinterpret_cast<const char*> GRPC_SLICE_START_PTR(s)]: the bytes of the
    slice read as characters. *)
Definition GRPC_SLICE_START_PTR (s : grpc_slice) : string :=
  string_of_list_byte s.

(** [grpc_slice_from_copied_buffer(source, len)] for a C string [source]: the
    first [len] bytes of the string and its terminator. *)
Definition grpc_slice_from_copied_buffer (source : string) (len : nat)
  : grpc_slice :=
  take len (list_byte_of_string source ++ [x00]).

(** ** Collaborators and statics *)

Inductive grpc_ssl_roots_override_result : Type :=
| GRPC_SSL_ROOTS_OVERRIDE_OK
| GRPC_SSL_ROOTS_OVERRIDE_FAIL_PERMANENTLY
| GRPC_SSL_ROOTS_OVERRIDE_FAIL.

#[global] Instance grpc_ssl_roots_override_result_eq_dec :
  EqDecision grpc_ssl_roots_override_result.
Proof. solve_decision. Defined.

(** [grpc_ssl_roots_override_callback]: what a call answers and what it
    leaves in [*pem_root_certs]. *)
Definition grpc_ssl_roots_override_callback : Type :=
  unit -> grpc_ssl_roots_override_result * option string.

Inductive tsi_result : Type :=
| TSI_OK
| TSI_ERROR (description : string).

#[global] Instance tsi_result_eq_dec : EqDecision tsi_result.
Proof. solve_decision. Defined.

Definition tsi_result_to_string (r : tsi_result) : string :=
  match r with
  | TSI_OK => "TSI_OK"
  | TSI_ERROR description => description
  end.

(** Handles of the engine's objects. *)
Definition tsi_ssl_root_certs_store : Type := nat.
Definition tsi_ssl_session_cache : Type := nat.
Definition tsi_ssl_client_handshaker_factory : Type := nat.

Record tsi_ssl_pem_key_cert_pair : Type := {
  private_key : option string;
  cert_chain : option string
}.

Record tsi_ssl_client_handshaker_options : Type := {
  pem_key_cert_pair : option tsi_ssl_pem_key_cert_pair;
  pem_root_certs : option string;
  root_store : option tsi_ssl_root_certs_store;
  cipher_suites : option string;
  alpn_protocols : option (list string);
  num_alpn_protocols : nat;
  session_cache : option tsi_ssl_session_cache
}.

(** The default-constructed options: every member null or zero. *)
Definition new_tsi_ssl_client_handshaker_options
  : tsi_ssl_client_handshaker_options :=
  {| pem_key_cert_pair := None; pem_root_certs := None; root_store := None;
     cipher_suites := None; alpn_protocols := None; num_alpn_protocols := 0;
     session_cache := None |}.

(** What the process is configured with and how the collaborators outside this
    file answer. *)
Record environment : Type := {
  (** the macro [INSTALL_PREFIX], when defined *)
  INSTALL_PREFIX : option string;
  (** [GPR_GLOBAL_CONFIG_GET] of the three configuration variables *)
  grpc_default_ssl_roots_file_path : string;
  grpc_not_use_system_ssl_roots : bool;
  grpc_ssl_cipher_suites : string;
  (** [grpc_load_file(path, add_null_terminator, &out)]: its error and the
      slice it leaves in [out] *)
  grpc_load_file : string -> Z -> grpc_error * grpc_slice;
  (** [LoadSystemRootCerts()] (load_system_roots.h) *)
  LoadSystemRootCerts : grpc_slice;
  (** [tsi_ssl_root_certs_store_create(pem_roots)] *)
  tsi_ssl_root_certs_store_create : string -> option tsi_ssl_root_certs_store;
  (** alpn.h *)
  grpc_chttp2_num_alpn_versions : nat;
  grpc_chttp2_get_alpn_version_index : nat -> string;
  (** [tsi_create_ssl_client_handshaker_factory_with_options(&options,
      factory)]: its result and the value behind [factory] afterwards, given
      the value before *)
  tsi_create_ssl_client_handshaker_factory_with_options :
    tsi_ssl_client_handshaker_options ->
    option tsi_ssl_client_handshaker_factory ->
    tsi_result * option tsi_ssl_client_handshaker_factory
}.

(** The file-level statics. *)
Record statics : Type := {
  ssl_roots_override_cb : option grpc_ssl_roots_override_callback;
  cipher_suites_once : bool;
  static_cipher_suites : option string;
  (** the [once] of [InitRootStore] *)
  init_root_store_once : bool;
  default_root_store_ : option tsi_ssl_root_certs_store;
  default_pem_root_certs_ : grpc_slice
}.

(** The statics at program start. *)
Definition initial_statics : statics :=
  {| ssl_roots_override_cb := None;
     cipher_suites_once := false;
     static_cipher_suites := None;
     init_root_store_once := false;
     default_root_store_ := None;
     default_pem_root_certs_ := grpc_empty_slice |}.

(** Calls that leave this file, in the order they are made. *)
Inductive call : Type :=
| call_grpc_load_file (path : string) (add_null_terminator : Z)
| call_ssl_roots_override_cb
| call_LoadSystemRootCerts
| call_tsi_ssl_root_certs_store_create (pem_roots : string)
| call_tsi_create_ssl_client_handshaker_factory_with_options
    (options : tsi_ssl_client_handshaker_options)
| call_gpr_log (message : string).

Record world : Type := {
  globals : statics;
  calls : list call
}.

Definition initial_world : world :=
  {| globals := initial_statics; calls := [] |}.

(** ** The monad of stateful code *)

Record M (A : Type) : Type := mkM { runM : world -> outcome (A * world) }.
Arguments mkM {A} _.
Arguments runM {A} _ _.

#[global] Instance M_ret : MRet M := fun A a => mkM (fun w => Returns (a, w)).
#[global] Instance M_bind : MBind M := fun A B k m =>
  mkM (fun w =>
         match runM m w with
         | Returns (a, w') => runM (k a) w'
         | Aborts what => Aborts what
         | Undefined => Undefined
         end).

Definition get_statics : M statics := mkM (fun w => Returns (globals w, w)).
Definition put_statics (s : statics) : M unit :=
  mkM (fun w => Returns (tt, {| globals := s; calls := calls w |})).
Definition record_call (c : call) : M unit :=
  mkM (fun w =>
         Returns (tt, {| globals := globals w; calls := calls w ++ [c] |})).
(** [GPR_ASSERT] in stateful code. *)
Definition assert_M (cond : bool) (text : string) : M unit :=
  mkM (fun w => _ ← GPR_ASSERT cond text; Returns (tt, w)).
(** Behaviour the C standard leaves undefined. *)
Definition undefined_M {A} : M A := mkM (fun _ => Undefined).

(** Assignments to single statics. *)
Definition set_ssl_roots_override_cb
    (cb : option grpc_ssl_roots_override_callback) (s : statics) : statics :=
  {| ssl_roots_override_cb := cb;
     cipher_suites_once := cipher_suites_once s;
     static_cipher_suites := static_cipher_suites s;
     init_root_store_once := init_root_store_once s;
     default_root_store_ := default_root_store_ s;
     default_pem_root_certs_ := default_pem_root_certs_ s |}.

Definition set_cipher_suites_once (b : bool) (s : statics) : statics :=
  {| ssl_roots_override_cb := ssl_roots_override_cb s;
     cipher_suites_once := b;
     static_cipher_suites := static_cipher_suites s;
     init_root_store_once := init_root_store_once s;
     default_root_store_ := default_root_store_ s;
     default_pem_root_certs_ := default_pem_root_certs_ s |}.

Definition set_cipher_suites (v : option string) (s : statics) : statics :=
  {| ssl_roots_override_cb := ssl_roots_override_cb s;
     cipher_suites_once := cipher_suites_once s;
     static_cipher_suites := v;
     init_root_store_once := init_root_store_once s;
     default_root_store_ := default_root_store_ s;
     default_pem_root_certs_ := default_pem_root_certs_ s |}.

Definition set_init_root_store_once (b : bool) (s : statics) : statics :=
  {| ssl_roots_override_cb := ssl_roots_override_cb s;
     cipher_suites_once := cipher_suites_once s;
     static_cipher_suites := static_cipher_suites s;
     init_root_store_once := b;
     default_root_store_ := default_root_store_ s;
     default_pem_root_certs_ := default_pem_root_certs_ s |}.

Definition set_default_root_store_
    (v : option tsi_ssl_root_certs_store) (s : statics) : statics :=
  {| ssl_roots_override_cb := ssl_roots_override_cb s;
     cipher_suites_once := cipher_suites_once s;
     static_cipher_suites := static_cipher_suites s;
     init_root_store_once := init_root_store_once s;
     default_root_store_ := v;
     default_pem_root_certs_ := default_pem_root_certs_ s |}.

Definition set_default_pem_root_certs_ (v : grpc_slice) (s : statics)
  : statics :=
  {| ssl_roots_override_cb := ssl_roots_override_cb s;
     cipher_suites_once := cipher_suites_once s;
     static_cipher_suites := static_cipher_suites s;
     init_root_store_once := init_root_store_once s;
     default_root_store_ := default_root_store_ s;
     default_pem_root_certs_ := v |}.

Definition modify_statics (f : statics -> statics) : M unit :=
  s ← get_statics; put_statics (f s).

Definition gpr_log (message : string) : M unit :=
  record_call (call_gpr_log message).

(** [GRPC_LOG_IF_ERROR(what, error)] *)
Definition GRPC_LOG_IF_ERROR (what : string) (error : grpc_error) : M bool :=
  match error with
  | GRPC_ERROR_NONE => mret true
  | GRPC_ERROR_CREATE msg => _ ← gpr_log (what +:+ ": " +:+ msg); mret false
  end.


Section DefaultSslRootStore.
Variable env : environment.

Definition installed_roots_path : string :=
  match INSTALL_PREFIX env with
  | None => "/usr/share/grpc/roots.pem"
  | Some prefix => prefix +:+ "/share/grpc/roots.pem"
  end.

(** ** Cipher suites *)

Definition init_cipher_suites : M unit :=
  let value := grpc_ssl_cipher_suites env in
  modify_statics (set_cipher_suites (Some value)).

(** [gpr_once_init(&cipher_suites_once, init_cipher_suites)], then the
    static. *)
Definition grpc_get_ssl_cipher_suites : M (option string) :=
  s ← get_statics;
  _ ← (if cipher_suites_once s then mret tt
       else
         _ ← modify_statics (set_cipher_suites_once true);
         init_cipher_suites);
  s ← get_statics;
  mret (static_cipher_suites s).

(** [grpc_fill_alpn_protocol_strings]: the array and [*num_alpn_protocols]. *)
Definition grpc_fill_alpn_protocol_strings : list string * nat :=
  let num_alpn_protocols := grpc_chttp2_num_alpn_versions env in
  (grpc_chttp2_get_alpn_version_index env <$> seq 0 num_alpn_protocols,
   num_alpn_protocols).

(** ** Default SSL root store *)

(** The calls of [ComputePemRootCerts] to its sources. *)
Definition load_file (path : string) (add_null_terminator : Z)
  : M (grpc_error * grpc_slice) :=
  _ ← record_call (call_grpc_load_file path add_null_terminator);
  mret (grpc_load_file env path add_null_terminator).

Definition invoke_override_cb (cb : grpc_ssl_roots_override_callback)
  : M (grpc_ssl_roots_override_result * option string) :=
  _ ← record_call call_ssl_roots_override_cb;
  mret (cb tt).

Definition load_system_root_certs : M grpc_slice :=
  _ ← record_call call_LoadSystemRootCerts;
  mret (LoadSystemRootCerts env).

Definition ComputePemRootCerts : M grpc_slice :=
  let result := grpc_empty_slice in
  let not_use_system_roots := grpc_not_use_system_ssl_roots env in
  (* First try to load the roots from the configuration. *)
  let default_root_certs_path := grpc_default_ssl_roots_file_path env in
  result ←
    (if (0 <? strlen default_root_certs_path)%nat then
       '(error, result) ← load_file default_root_certs_path 1;
       _ ← GRPC_LOG_IF_ERROR "load_file" error;
       mret result
     else mret result);
  (* Try overridden roots if needed. *)
  let ovrd_res := GRPC_SSL_ROOTS_OVERRIDE_FAIL in
  s ← get_statics;
  '(ovrd_res, result) ←
    (match GRPC_SLICE_IS_EMPTY result, ssl_roots_override_cb s with
     | true, Some cb =>
         '(ovrd_res, pem_root_certs) ← invoke_override_cb cb;
         if decide (ovrd_res = GRPC_SSL_ROOTS_OVERRIDE_OK) then
           _ ← assert_M (bool_decide (pem_root_certs ≠ None))
                 "pem_root_certs != nullptr";
           match pem_root_certs with
           | Some pem =>
               (* nullptr terminator. *)
               mret (ovrd_res,
                     grpc_slice_from_copied_buffer pem (strlen pem + 1))
           | None => undefined_M
           end
         else mret (ovrd_res, result)
     | _, _ => mret (ovrd_res, result)
     end);
  (* Try loading roots from OS trust store if flag is enabled. *)
  result ←
    (if GRPC_SLICE_IS_EMPTY result && negb not_use_system_roots then
       load_system_root_certs
     else mret result);
  (* Fallback to roots manually shipped with gRPC. *)
  result ←
    (if GRPC_SLICE_IS_EMPTY result
        && bool_decide (ovrd_res ≠ GRPC_SSL_ROOTS_OVERRIDE_FAIL_PERMANENTLY)
     then
       '(error, result) ← load_file installed_roots_path 1;
       _ ← GRPC_LOG_IF_ERROR "load_file" error;
       mret result
     else mret result);
  mret result.

Definition InitRootStoreOnce : M unit :=
  pem ← ComputePemRootCerts;
  _ ← modify_statics (set_default_pem_root_certs_ pem);
  s ← get_statics;
  if negb (GRPC_SLICE_IS_EMPTY (default_pem_root_certs_ s)) then
    let pem_roots := GRPC_SLICE_START_PTR (default_pem_root_certs_ s) in
    _ ← record_call (call_tsi_ssl_root_certs_store_create pem_roots);
    modify_statics
      (set_default_root_store_
         (tsi_ssl_root_certs_store_create env pem_roots))
  else mret tt.

(** [gpr_once_init(&once, DefaultSslRootStore::InitRootStoreOnce)] *)
Definition InitRootStore : M unit :=
  s ← get_statics;
  if init_root_store_once s then mret tt
  else
    _ ← modify_statics (set_init_root_store_once true);
    InitRootStoreOnce.

Definition GetRootStore : M (option tsi_ssl_root_certs_store) :=
  _ ← InitRootStore;
  s ← get_statics;
  mret (default_root_store_ s).

Definition GetPemRootCerts : M (option string) :=
  _ ← InitRootStore;
  s ← get_statics;
  mret (if GRPC_SLICE_IS_EMPTY (default_pem_root_certs_ s) then None
        else Some (GRPC_SLICE_START_PTR (default_pem_root_certs_ s))).

(** ** Client handshaker factory *)

(** The part of [grpc_ssl_tsi_client_handshaker_factory_init] after
    [root_certs] and [root_store] are chosen. *)
Definition client_handshaker_factory_init_with_roots
    (root_certs : option string)
    (root_store : option tsi_ssl_root_certs_store)
    (pem_key_cert_pair : option tsi_ssl_pem_key_cert_pair)
    (ssl_session_cache : option tsi_ssl_session_cache)
    (handshaker_factory : option tsi_ssl_client_handshaker_factory)
  : M (grpc_security_status * option tsi_ssl_client_handshaker_factory) :=
  let has_key_cert_pair :=
    match pem_key_cert_pair with
    | Some key_cert =>
        bool_decide (private_key key_cert ≠ None)
        && bool_decide (cert_chain key_cert ≠ None)
    | None => false
    end in
  (* GPR_DEBUG_ASSERT(root_certs != nullptr), checked in debug builds *)
  _ ← assert_M (bool_decide (root_certs ≠ None)) "root_certs != nullptr";
  let '(alpn_protocol_strings, num) := grpc_fill_alpn_protocol_strings in
  suites ← grpc_get_ssl_cipher_suites;
  (* [options] starts as [new_tsi_ssl_client_handshaker_options]; the
     key/certificate pair is assigned only under [has_key_cert_pair]. *)
  let options :=
    {| pem_root_certs := root_certs;
       root_store := root_store;
       alpn_protocols := Some alpn_protocol_strings;
       num_alpn_protocols := num;
       pem_key_cert_pair :=
         if has_key_cert_pair then pem_key_cert_pair else None;
       cipher_suites := suites;
       session_cache := ssl_session_cache |} in
  _ ← record_call
        (call_tsi_create_ssl_client_handshaker_factory_with_options options);
  let '(result, handshaker_factory) :=
    tsi_create_ssl_client_handshaker_factory_with_options env options
      handshaker_factory in
  (* gpr_free((void* )options.alpn_protocols) *)
  if decide (result ≠ TSI_OK) then
    _ ← gpr_log ("Handshaker factory creation failed with "
                 +:+ tsi_result_to_string result +:+ ".");
    mret (GRPC_SECURITY_ERROR, handshaker_factory)
  else mret (GRPC_SECURITY_OK, handshaker_factory).

(** [handshaker_factory] is the value behind the output parameter before the
    call; the second component of the result is the value behind it after the
    call. *)
Definition grpc_ssl_tsi_client_handshaker_factory_init
    (pem_key_cert_pair : option tsi_ssl_pem_key_cert_pair)
    (pem_root_certs : option string)
    (ssl_session_cache : option tsi_ssl_session_cache)
    (handshaker_factory : option tsi_ssl_client_handshaker_factory)
  : M (grpc_security_status * option tsi_ssl_client_handshaker_factory) :=
  match pem_root_certs with
  | None =>
      (* Use default root certificates. *)
      root_certs ← GetPemRootCerts;
      match root_certs with
      | None =>
          _ ← gpr_log "Could not get default pem root certs.";
          mret (GRPC_SECURITY_ERROR, handshaker_factory)
      | Some _ =>
          root_store ← GetRootStore;
          client_handshaker_factory_init_with_roots root_certs root_store
            pem_key_cert_pair ssl_session_cache handshaker_factory
      end
  | Some _ =>
      let root_certs := pem_root_certs in
      let root_store := None in
      client_handshaker_factory_init_with_roots root_certs root_store
        pem_key_cert_pair ssl_session_cache handshaker_factory
  end.

End DefaultSslRootStore.

(** ** Vocabulary of the statements *)

Section Vocabulary.
Context {K : property_names}.

(** The property list holds a property named [name]. *)
Definition has_property (name : string) (props : list tsi_peer_property)
  : bool :=
  existsb (fun p => bool_decide (tsi_name p = Some name)) props.

(** The table of the extractor: the context property written for a peer
    property, if any. *)
Definition auth_property_of (p : tsi_peer_property)
  : option grpc_auth_property :=
  match tsi_name p with
  | None => None
  | Some name =>
      if bool_decide (name = TSI_X509_SUBJECT_COMMON_NAME_PEER_PROPERTY) then
        Some {| auth_name := GRPC_X509_CN_PROPERTY_NAME;
                auth_value := tsi_value p |}
      else if bool_decide
                (name = TSI_X509_SUBJECT_ALTERNATIVE_NAME_PEER_PROPERTY) then
        Some {| auth_name := GRPC_X509_SAN_PROPERTY_NAME;
                auth_value := tsi_value p |}
      else if bool_decide (name = TSI_X509_PEM_CERT_PROPERTY) then
        Some {| auth_name := GRPC_X509_PEM_CERT_PROPERTY_NAME;
                auth_value := tsi_value p |}
      else if bool_decide (name = TSI_SSL_SESSION_REUSED_PEER_PROPERTY) then
        Some {| auth_name := GRPC_SSL_SESSION_REUSED_PROPERTY;
                auth_value := tsi_value p |}
      else None
  end.

(** The inverse table of the reconstructor: the peer property written for a
    context property, if any. *)
Definition tsi_property_of (p : grpc_auth_property)
  : option tsi_peer_property :=
  if bool_decide (auth_name p = GRPC_X509_SAN_PROPERTY_NAME) then
    Some {| tsi_name := Some TSI_X509_SUBJECT_ALTERNATIVE_NAME_PEER_PROPERTY;
            tsi_value := auth_value p |}
  else if bool_decide (auth_name p = GRPC_X509_CN_PROPERTY_NAME) then
    Some {| tsi_name := Some TSI_X509_SUBJECT_COMMON_NAME_PEER_PROPERTY;
            tsi_value := auth_value p |}
  else if bool_decide (auth_name p = GRPC_X509_PEM_CERT_PROPERTY_NAME) then
    Some {| tsi_name := Some TSI_X509_PEM_CERT_PROPERTY;
            tsi_value := auth_value p |}
  else None.

(** SAN, CN and PEM-certificate properties of a context. *)
Definition is_shallow_property (p : grpc_auth_property) : bool :=
  bool_decide (auth_name p = GRPC_X509_SAN_PROPERTY_NAME)
  || bool_decide (auth_name p = GRPC_X509_CN_PROPERTY_NAME)
  || bool_decide (auth_name p = GRPC_X509_PEM_CERT_PROPERTY_NAME).

(** SAN, CN and PEM-certificate properties of a peer. *)
Definition is_x509_property (p : tsi_peer_property) : bool :=
  bool_decide
    (tsi_name p = Some TSI_X509_SUBJECT_ALTERNATIVE_NAME_PEER_PROPERTY)
  || bool_decide (tsi_name p = Some TSI_X509_SUBJECT_COMMON_NAME_PEER_PROPERTY)
  || bool_decide (tsi_name p = Some TSI_X509_PEM_CERT_PROPERTY).

(** The value of the local [peer_identity_property_name] after a run of the
    loop over [props] that starts with [start]: SAN when a SAN property
    occurs, else the start value, else CN when a CN property occurs. *)
Definition identity_from (start : option string)
    (props : list tsi_peer_property) : option string :=
  if has_property TSI_X509_SUBJECT_ALTERNATIVE_NAME_PEER_PROPERTY props
  then Some GRPC_X509_SAN_PROPERTY_NAME
  else match start with
       | Some _ => start
       | None =>
           if has_property TSI_X509_SUBJECT_COMMON_NAME_PEER_PROPERTY props
           then Some GRPC_X509_CN_PROPERTY_NAME
           else None
       end.

(** The identity the extractor designates for a property list. *)
Definition designated_identity (props : list tsi_peer_property)
  : option string :=
  identity_from None props.

(** The first property the extractor writes. *)
Definition transport_security_type_property : grpc_auth_property :=
  {| auth_name := GRPC_TRANSPORT_SECURITY_TYPE_PROPERTY_NAME;
     auth_value := list_byte_of_string GRPC_SSL_TRANSPORT_SECURITY_TYPE |}.

End Vocabulary.

(** ** Vocabulary of the root-store statements *)

Section RootStoreVocabulary.
Variable env : environment.
(** the registered override callback, if any *)
Variable cb : option grpc_ssl_roots_override_callback.

(** Step 1 is tried when the configured path is not empty. *)
Definition tries_configured_file : bool :=
  (0 <? strlen (grpc_default_ssl_roots_file_path env))%nat.

(** The bytes step 1 produces. *)
Definition configured_roots : grpc_slice :=
  if tries_configured_file
  then snd (grpc_load_file env (grpc_default_ssl_roots_file_path env) 1)
  else grpc_empty_slice.

(** The answer of the override callback, [GRPC_SSL_ROOTS_OVERRIDE_FAIL]
    without one. *)
Definition override_answer : grpc_ssl_roots_override_result :=
  match cb with
  | Some f => fst (f tt)
  | None => GRPC_SSL_ROOTS_OVERRIDE_FAIL
  end.

(** The bytes step 2 produces. *)
Definition override_roots : grpc_slice :=
  match cb with
  | Some f =>
      match f tt with
      | (GRPC_SSL_ROOTS_OVERRIDE_OK, Some pem) =>
          grpc_slice_from_copied_buffer pem (strlen pem + 1)
      | _ => grpc_empty_slice
      end
  | None => grpc_empty_slice
  end.

(** The bytes step 3 produces. *)
Definition system_roots : grpc_slice :=
  if grpc_not_use_system_ssl_roots env then grpc_empty_slice
  else LoadSystemRootCerts env.

(** The answer of [grpc_load_file] for the installed file. *)
Definition installed_roots : grpc_slice :=
  snd (grpc_load_file env (installed_roots_path env) 1).

(** Step 2 is tried when step 1 produced nothing and a callback is
    registered. *)
Definition tries_override : bool :=
  GRPC_SLICE_IS_EMPTY configured_roots && bool_decide (is_Some cb).

(** Step 3 is tried when steps 1 and 2 produced nothing and the flag does
    not disable it. *)
Definition tries_system_roots : bool :=
  GRPC_SLICE_IS_EMPTY configured_roots
  && GRPC_SLICE_IS_EMPTY override_roots
  && negb (grpc_not_use_system_ssl_roots env).

(** Step 4 is tried when steps 1, 2 and 3 produced nothing and the callback
    did not answer fail-permanently. *)
Definition tries_installed_file : bool :=
  GRPC_SLICE_IS_EMPTY configured_roots
  && GRPC_SLICE_IS_EMPTY override_roots
  && GRPC_SLICE_IS_EMPTY system_roots
  && bool_decide (override_answer ≠ GRPC_SSL_ROOTS_OVERRIDE_FAIL_PERMANENTLY).

(** The calls to the four sources, in the order they are made. *)
Definition root_source_calls : list call :=
  (if tries_configured_file
   then [call_grpc_load_file (grpc_default_ssl_roots_file_path env) 1]
   else [])
  ++ (if tries_override then [call_ssl_roots_override_cb] else [])
  ++ (if tries_system_roots then [call_LoadSystemRootCerts] else [])
  ++ (if tries_installed_file
      then [call_grpc_load_file (installed_roots_path env) 1]
      else []).

(** The first slice that is not empty, in priority order. *)
Definition first_nonempty (slices : list grpc_slice) : grpc_slice :=
  default grpc_empty_slice
    (head (List.filter (fun s => negb (GRPC_SLICE_IS_EMPTY s)) slices)).

Definition resolved_roots : grpc_slice :=
  first_nonempty
    [ configured_roots; override_roots; system_roots;
      if tries_installed_file then installed_roots else grpc_empty_slice ].

(** A callback that answers OK leaves a string behind. *)
Definition override_well_behaved : Prop :=
  ∀ f, cb = Some f →
       fst (f tt) = GRPC_SSL_ROOTS_OVERRIDE_OK → snd (f tt) ≠ None.

End RootStoreVocabulary.

(** The calls other than [gpr_log]. *)
Definition is_log (c : call) : bool :=
  match c with
  | call_gpr_log _ => true
  | _ => false
  end.

Definition without_logs (cs : list call) : list call :=
  List.filter (fun c => negb (is_log c)) cs.

Definition is_factory_creation (c : call) : bool :=
  match c with
  | call_tsi_create_ssl_client_handshaker_factory_with_options _ => true
  | _ => false
  end.

(** A computation that, when it returns, has only added calls that satisfy
    [P]. *)
Definition only_adds (P : call -> bool) {A} (m : M A) : Prop :=
  ∀ w a w',
    runM m w = Returns (a, w') →
    ∃ extra, calls w' = calls w ++ extra ∧ forallb P extra = true.

(** The statics of the default root store. *)
Definition root_store_statics (s : statics)
  : bool * option tsi_ssl_root_certs_store * grpc_slice :=
  (init_root_store_once s, default_root_store_ s, default_pem_root_certs_ s).

(** ** Sample inputs, with the names of the released headers *)

Definition sample_cn : tsi_peer_property :=
  {| tsi_name := Some "x509_subject_common_name";
     tsi_value := list_byte_of_string "host.example.com" |}.

Definition sample_san : tsi_peer_property :=
  {| tsi_name := Some "x509_subject_alternative_name";
     tsi_value := list_byte_of_string "*.example.com" |}.

Definition sample_pem : tsi_peer_property :=
  {| tsi_name := Some "x509_pem_cert";
     tsi_value := list_byte_of_string "-----BEGIN CERTIFICATE-----" |}.

Definition sample_session_reused : tsi_peer_property :=
  {| tsi_name := Some "ssl_session_reused";
     tsi_value := list_byte_of_string "true" |}.

(** The context the extractor builds for a peer with a common name only. *)
Definition sample_cn_context : grpc_auth_context :=
  {| auth_properties :=
       [ {| auth_name := "transport_security_type";
            auth_value := list_byte_of_string "ssl" |};
         {| auth_name := "x509_common_name";
            auth_value := list_byte_of_string "host.example.com" |} ];
     peer_identity_property_name := Some "x509_common_name" |}.

(** A peer whose certificate carries an empty subject alternative name. *)
Definition sample_empty_san_peer : tsi_peer :=
  tsi_peer_of [ {| tsi_name := Some "x509_subject_alternative_name";
                   tsi_value := [] |} ].

(** A peer whose certificate names [::1]. *)
Definition sample_loopback_peer : tsi_peer :=
  tsi_peer_of [ {| tsi_name := Some "x509_subject_alternative_name";
                   tsi_value := list_byte_of_string "::1" |} ].

(** An environment with no configured path, the OS trust store enabled, and
    the given answers of the OS trust store and of the installed file. *)
Definition sample_environment (os_roots installed : grpc_slice) : environment :=
  {| INSTALL_PREFIX := None;
     grpc_default_ssl_roots_file_path := "";
     grpc_not_use_system_ssl_roots := false;
     grpc_ssl_cipher_suites :=
       "ECDHE-ECDSA-AES128-GCM-SHA256:ECDHE-ECDSA-AES256-GCM-SHA384:"
       +:+ "ECDHE-RSA-AES128-GCM-SHA256:ECDHE-RSA-AES256-GCM-SHA384";
     grpc_load_file := fun path _ =>
       if String.eqb path "/usr/share/grpc/roots.pem"
       then (GRPC_ERROR_NONE, installed)
       else (GRPC_ERROR_CREATE "Failed to load file", grpc_empty_slice);
     LoadSystemRootCerts := os_roots;
     tsi_ssl_root_certs_store_create := fun _ => Some 1;
     grpc_chttp2_num_alpn_versions := 2;
     grpc_chttp2_get_alpn_version_index := fun i =>
       match i with 0 => "grpc-exp" | _ => "h2" end;
     tsi_create_ssl_client_handshaker_factory_with_options := fun _ _ =>
       (TSI_OK, Some 7) |}.

(** A callback that answers fail-permanently. *)
Definition override_roots_permanent_failure : grpc_ssl_roots_override_callback :=
  fun _ => (GRPC_SSL_ROOTS_OVERRIDE_FAIL_PERMANENTLY, None).

(** The world after [grpc_set_ssl_roots_override_callback(cb)] at program
    start. *)
Definition world_with_override (cb : grpc_ssl_roots_override_callback) : world :=
  {| globals := set_ssl_roots_override_cb (Some cb) initial_statics;
     calls := [] |}.

Definition sample_os_roots : grpc_slice :=
  list_byte_of_string "OS TRUST STORE" ++ [x00].

Definition sample_installed_roots : grpc_slice :=
  list_byte_of_string "INSTALLED ROOTS" ++ [x00].

(** ** Further functions of ssl_utils.cc *)

(** [grpc_ssl_client_certificate_request_type]; the last constructor stands
    for an integer that is none of the five enumerators. *)
Inductive grpc_ssl_client_certificate_request_type : Type :=
| GRPC_SSL_DONT_REQUEST_CLIENT_CERTIFICATE
| GRPC_SSL_REQUEST_CLIENT_CERTIFICATE_BUT_DONT_VERIFY
| GRPC_SSL_REQUEST_CLIENT_CERTIFICATE_AND_VERIFY
| GRPC_SSL_REQUEST_AND_REQUIRE_CLIENT_CERTIFICATE_BUT_DONT_VERIFY
| GRPC_SSL_REQUEST_AND_REQUIRE_CLIENT_CERTIFICATE_AND_VERIFY
| grpc_ssl_client_certificate_request_out_of_range (value : Z).

Inductive tsi_client_certificate_request_type : Type :=
| TSI_DONT_REQUEST_CLIENT_CERTIFICATE
| TSI_REQUEST_CLIENT_CERTIFICATE_BUT_DONT_VERIFY
| TSI_REQUEST_CLIENT_CERTIFICATE_AND_VERIFY
| TSI_REQUEST_AND_REQUIRE_CLIENT_CERTIFICATE_BUT_DONT_VERIFY
| TSI_REQUEST_AND_REQUIRE_CLIENT_CERTIFICATE_AND_VERIFY.

Definition grpc_get_tsi_client_certificate_request_type
    (grpc_request_type : grpc_ssl_client_certificate_request_type)
  : tsi_client_certificate_request_type :=
  match grpc_request_type with
  | GRPC_SSL_DONT_REQUEST_CLIENT_CERTIFICATE =>
      TSI_DONT_REQUEST_CLIENT_CERTIFICATE
  | GRPC_SSL_REQUEST_CLIENT_CERTIFICATE_BUT_DONT_VERIFY =>
      TSI_REQUEST_CLIENT_CERTIFICATE_BUT_DONT_VERIFY
  | GRPC_SSL_REQUEST_CLIENT_CERTIFICATE_AND_VERIFY =>
      TSI_REQUEST_CLIENT_CERTIFICATE_AND_VERIFY
  | GRPC_SSL_REQUEST_AND_REQUIRE_CLIENT_CERTIFICATE_BUT_DONT_VERIFY =>
      TSI_REQUEST_AND_REQUIRE_CLIENT_CERTIFICATE_BUT_DONT_VERIFY
  | GRPC_SSL_REQUEST_AND_REQUIRE_CLIENT_CERTIFICATE_AND_VERIFY =>
      TSI_REQUEST_AND_REQUIRE_CLIENT_CERTIFICATE_AND_VERIFY
  | grpc_ssl_client_certificate_request_out_of_range _ =>
      (* default: *)
      TSI_DONT_REQUEST_CLIENT_CERTIFICATE
  end.

(** The five enumerators. *)
Definition is_enumerator (t : grpc_ssl_client_certificate_request_type)
  : bool :=
  match t with
  | grpc_ssl_client_certificate_request_out_of_range _ => false
  | _ => true
  end.

Section CmpTargetName.
(** [grpc_core::StringView::cmp] (string_view.h), a three-way comparison. *)
Variable StringView_cmp : string -> string -> Z.

Definition grpc_ssl_cmp_target_name
    (target_name other_target_name : string)
    (overridden_target_name other_overridden_target_name : string) : Z :=
  let c := StringView_cmp target_name other_target_name in
  if negb (c =? 0)%Z then c
  else StringView_cmp overridden_target_name other_overridden_target_name.

End CmpTargetName.

(** [tsi_ssl_server_handshaker_options], the members this file assigns;
    [server_num_alpn_protocols] is a [uint16_t]. *)
Record tsi_ssl_server_handshaker_options : Type := {
  pem_key_cert_pairs : option (list tsi_ssl_pem_key_cert_pair);
  num_key_cert_pairs : nat;
  pem_client_root_certs : option string;
  client_certificate_request : tsi_client_certificate_request_type;
  server_cipher_suites : option string;
  server_alpn_protocols : option (list string);
  server_num_alpn_protocols : Z
}.

Definition tsi_ssl_server_handshaker_factory : Type := nat.

(** [static_cast<uint16_t>(n)] *)
Definition static_cast_uint16_t (n : nat) : Z := (Z.of_nat n mod 65536)%Z.

Section FurtherFunctions.
Variable env : environment.
(** [tsi_create_ssl_server_handshaker_factory_with_options(&options,
    factory)]: its result and the value behind [factory] afterwards, given the
    value before. *)
Variable tsi_create_ssl_server_handshaker_factory_with_options :
  tsi_ssl_server_handshaker_options ->
  option tsi_ssl_server_handshaker_factory ->
  tsi_result * option tsi_ssl_server_handshaker_factory.

(** The [for] loop of [grpc_fill_alpn_protocol_strings] on the array, with
    [todo] iterations left. *)
Fixpoint fill_alpn_protocol_strings_loop (todo i : nat)
    (alpn_protocol_strings : list (option string))
  : outcome (list (option string)) :=
  match todo with
  | O => Returns alpn_protocol_strings
  | S todo' =>
      if decide (i < length alpn_protocol_strings) then
        fill_alpn_protocol_strings_loop todo' (S i)
          (<[ i := Some (grpc_chttp2_get_alpn_version_index env i) ]>
             alpn_protocol_strings)
      else Undefined
  end.

(** [grpc_fill_alpn_protocol_strings] on the heap array: [num_alpn_protocols]
    is [None] for a null pointer; the result is the array and the value left
    behind the pointer. *)
Definition grpc_fill_alpn_protocol_strings_array
    (num_alpn_protocols : option nat)
  : outcome (list (option string) * nat) :=
  _ ← GPR_ASSERT (bool_decide (num_alpn_protocols ≠ None))
        "num_alpn_protocols != nullptr";
  let num := grpc_chttp2_num_alpn_versions env in
  alpn_protocol_strings ←
    fill_alpn_protocol_strings_loop num 0 (replicate num None);
  Returns (alpn_protocol_strings, num).

(** [handshaker_factory] is the value behind the output parameter before the
    call; the second component of the result is the value behind it after the
    call. *)
Definition grpc_ssl_tsi_server_handshaker_factory_init
    (key_cert_pairs : option (list tsi_ssl_pem_key_cert_pair))
    (num_pairs : nat)
    (pem_root_certs : option string)
    (client_certificate_request : grpc_ssl_client_certificate_request_type)
    (handshaker_factory : option tsi_ssl_server_handshaker_factory)
  : M (grpc_security_status * option tsi_ssl_server_handshaker_factory) :=
  let '(alpn_protocol_strings, num_alpn_protocols) :=
    grpc_fill_alpn_protocol_strings env in
  suites ← grpc_get_ssl_cipher_suites env;
  let options :=
    {| pem_key_cert_pairs := key_cert_pairs;
       num_key_cert_pairs := num_pairs;
       pem_client_root_certs := pem_root_certs;
       client_certificate_request :=
         grpc_get_tsi_client_certificate_request_type
           client_certificate_request;
       server_cipher_suites := suites;
       server_alpn_protocols := Some alpn_protocol_strings;
       server_num_alpn_protocols :=
         static_cast_uint16_t num_alpn_protocols |} in
  let '(result, handshaker_factory) :=
    tsi_create_ssl_server_handshaker_factory_with_options options
      handshaker_factory in
  (* gpr_free((void* )alpn_protocol_strings) *)
  if decide (result ≠ TSI_OK) then
    _ ← gpr_log ("Handshaker factory creation failed with "
                 +:+ tsi_result_to_string result +:+ ".");
    mret (GRPC_SECURITY_ERROR, handshaker_factory)
  else mret (GRPC_SECURITY_OK, handshaker_factory).

End FurtherFunctions.

(** ** Vocabulary of the further statements *)



(** The designated name, if any, names a property of the context; [st] is
    the state of the extractor's loop. *)
Definition identity_is_present (st : option string * grpc_auth_context)
  : Prop :=
  ∀ name, fst st = Some name →
          existsb (fun q => String.eqb (auth_name q) name)
            (auth_properties (snd st)) = true.

(** An engine whose verdict depends on the peer only through the SAN, CN and
    PEM-certificate properties it shows. *)
Definition reads_x509_properties_only {K : property_names}
    (engine : tsi_peer -> string -> Z) : Prop :=
  ∀ peer1 peer2 props1 props2,
    tsi_peer_view peer1 = Some props1 →
    tsi_peer_view peer2 = Some props2 →
    List.filter is_x509_property props1 = List.filter is_x509_property props2 →
    ∀ name, engine peer1 name = engine peer2 name.

(** A key/certificate pair with both members present. *)
Definition complete_key_cert_pair
    (key_cert : option tsi_ssl_pem_key_cert_pair) : bool :=
  match key_cert with
  | Some kc =>
      match private_key kc, cert_chain kc with
      | Some _, Some _ => true
      | _, _ => false
      end
  | None => false
  end.

(** The environment with another cipher-suite configuration. *)
Definition with_cipher_suites (suites : string) (env : environment)
  : environment :=
  {| INSTALL_PREFIX := INSTALL_PREFIX env;
     grpc_default_ssl_roots_file_path := grpc_default_ssl_roots_file_path env;
     grpc_not_use_system_ssl_roots := grpc_not_use_system_ssl_roots env;
     grpc_ssl_cipher_suites := suites;
     grpc_load_file := grpc_load_file env;
     LoadSystemRootCerts := LoadSystemRootCerts env;
     tsi_ssl_root_certs_store_create := tsi_ssl_root_certs_store_create env;
     grpc_chttp2_num_alpn_versions := grpc_chttp2_num_alpn_versions env;
     grpc_chttp2_get_alpn_version_index :=
       grpc_chttp2_get_alpn_version_index env;
     tsi_create_ssl_client_handshaker_factory_with_options :=
       tsi_create_ssl_client_handshaker_factory_with_options env |}.

(** A callback that answers OK and leaves no string. *)
Definition override_roots_ok_without_string : grpc_ssl_roots_override_callback :=
  fun _ => (GRPC_SSL_ROOTS_OVERRIDE_OK, None).

(** A callback that answers OK with a PEM string. *)
Definition override_roots_ok : grpc_ssl_roots_override_callback :=
  fun _ => (GRPC_SSL_ROOTS_OVERRIDE_OK, Some "OVERRIDDEN ROOTS").

(** An engine's server-factory creation that succeeds. *)
Definition sample_server_factory_creation
    (options : tsi_ssl_server_handshaker_options)
    (factory : option tsi_ssl_server_handshaker_factory)
  : tsi_result * option tsi_ssl_server_handshaker_factory :=
  (TSI_OK, Some 9).

(** * Properties *)

(** ** The outcome monad and the C library *)

Lemma strcmp_zero_iff (s1 s2 : string) :
  (strcmp s1 s2 =? 0)%Z = true ↔ s1 = s2.
Proof.
  unfold strcmp. split.
  - intros Hz. apply String.compare_eq_iff.
    by destruct (String.compare s1 s2).
  - intros <-. pose proof (String.compare_antisym s1 s1) as Hsym.
    by destruct (String.compare s1 s1).
Qed.

Lemma strcmp_zero_decide (s1 s2 : string) :
  (strcmp s1 s2 =? 0)%Z = bool_decide (s1 = s2).
Proof.
  destruct (strcmp s1 s2 =? 0)%Z eqn:E.
  - apply strcmp_zero_iff in E. by rewrite bool_decide_eq_true_2.
  - rewrite bool_decide_eq_false_2; [done|].
    intros Heq. apply strcmp_zero_iff in Heq. congruence.
Qed.

(** ** Peers *)

Lemma tsi_peer_view_of (props : list tsi_peer_property) :
  tsi_peer_view (tsi_peer_of props) = Some props.
Proof.
  unfold tsi_peer_view, tsi_peer_of; simpl.
  rewrite length_fmap. rewrite decide_True by lia.
  rewrite <- (length_fmap Some props), firstn_all.
  apply mapM_Some, Forall2_fmap_l, Forall_Forall2_diag, Forall_true. done.
Qed.

Lemma tsi_peer_view_length (peer : tsi_peer) props :
  tsi_peer_view peer = Some props → length props = property_count peer.
Proof.
  unfold tsi_peer_view. destruct (properties peer) as [arr|].
  - case_decide; [|done]. intros Hm%mapM_Some%Forall2_length.
    rewrite length_take in Hm. lia.
  - case_decide; [|done]. intros [= <-]. done.
Qed.

Lemma tsi_peer_view_lookup (peer : tsi_peer) props i prop :
  tsi_peer_view peer = Some props →
  props !! i = Some prop →
  tsi_peer_property_at peer i = Returns prop.
Proof.
  unfold tsi_peer_view, tsi_peer_property_at.
  destruct (properties peer) as [arr|].
  - case_decide; [|done]. intros Hm%mapM_Some Hi.
    destruct (Forall2_lookup_r _ _ _ _ _ Hm Hi) as (slot & Hslot & Hid).
    simpl in Hid. subst slot.
    apply lookup_take_Some in Hslot as [Hslot _]. by rewrite Hslot.
  - case_decide; [|done]. intros [= <-]. done.
Qed.

(** ** Peer identity extractor *)

(** Pairwise inequalities out of a [NoDup] hypothesis on a literal list. *)
Ltac nodup_facts H :=
  unfold tsi_names_distinct, grpc_names_distinct in H;
  rewrite ?NoDup_cons, ?not_elem_of_cons in H;
  destruct_and?.

(** Evaluate the name comparisons that the hypotheses decide. *)
Ltac decide_names :=
  simpl;
  repeat (first [ rewrite bool_decide_eq_true_2 by congruence
                | rewrite bool_decide_eq_false_2 by congruence ];
          simpl).

(** Case analysis along a [strcmp] chain. *)
Ltac strcmp_cases :=
  rewrite ?strcmp_zero_decide in *;
  repeat case_bool_decide; simplify_eq/=; try done.

Section ExtractorFacts.
Context {K : property_names}.

Lemma peer_to_auth_context_loop_view peer props :
  tsi_peer_view peer = Some props →
  ∀ todo i st,
    i + todo ≤ length props →
    peer_to_auth_context_loop peer todo i st
    = Returns (foldl (λ st p, peer_to_auth_context_step p st) st
                 (take todo (drop i props))).
Proof.
  intros Hview todo. induction todo as [|todo IH]; intros i st Hle.
  - by rewrite take_0.
  - destruct (lookup_lt_is_Some_2 props i) as [p Hp]; [lia|].
    simpl. rewrite (tsi_peer_view_lookup _ _ _ _ Hview Hp). simpl.
    rewrite IH by lia. by rewrite (drop_S _ _ _ Hp).
Qed.

Lemma step_context p identity ctx :
  snd (peer_to_auth_context_step p (identity, ctx))
  = {| auth_properties :=
         auth_properties ctx ++ option_list (auth_property_of p);
       peer_identity_property_name := peer_identity_property_name ctx |}.
Proof.
  unfold peer_to_auth_context_step, auth_property_of.
  destruct ctx as [l d], (tsi_name p) as [name|]; simpl;
    [|by rewrite app_nil_r].
  strcmp_cases. by rewrite app_nil_r.
Qed.

Lemma fold_context props : ∀ identity ctx,
  snd (foldl (λ st p, peer_to_auth_context_step p st) (identity, ctx) props)
  = {| auth_properties := auth_properties ctx ++ omap auth_property_of props;
       peer_identity_property_name := peer_identity_property_name ctx |}.
Proof.
  induction props as [|p props IH]; intros identity ctx; cbn [foldl].
  - simpl. rewrite app_nil_r. by destruct ctx.
  - rewrite (surjective_pairing (peer_to_auth_context_step p (identity, ctx))).
    rewrite IH, step_context. cbn [auth_properties omap list_omap
      peer_identity_property_name].
    rewrite <- app_assoc. by destruct (auth_property_of p).
Qed.

Lemma step_identity p identity ctx :
  TSI_X509_SUBJECT_COMMON_NAME_PEER_PROPERTY
  ≠ TSI_X509_SUBJECT_ALTERNATIVE_NAME_PEER_PROPERTY →
  fst (peer_to_auth_context_step p (identity, ctx))
  = identity_from identity [p].
Proof.
  intros Hne. unfold peer_to_auth_context_step, identity_from, has_property.
  cbn [existsb fst]. destruct (tsi_name p) as [name|]; simpl.
  - strcmp_cases; by destruct identity.
  - by destruct identity.
Qed.

Lemma identity_from_cons start p props :
  identity_from (identity_from start [p]) props
  = identity_from start (p :: props).
Proof.
  unfold identity_from, has_property; simpl.
  repeat case_bool_decide; simpl;
    repeat (destruct (existsb _ props)); by destruct start.
Qed.

Lemma fold_identity props :
  TSI_X509_SUBJECT_COMMON_NAME_PEER_PROPERTY
  ≠ TSI_X509_SUBJECT_ALTERNATIVE_NAME_PEER_PROPERTY →
  ∀ identity ctx,
    fst (foldl (λ st p, peer_to_auth_context_step p st) (identity, ctx) props)
    = identity_from identity props.
Proof.
  intros Hne. induction props as [|p props IH]; intros identity ctx;
    cbn [foldl].
  - unfold identity_from; simpl. by destruct identity.
  - rewrite (surjective_pairing (peer_to_auth_context_step p (identity, ctx))).
    by rewrite IH, step_identity, identity_from_cons.
Qed.

Lemma identity_from_None_cases props :
  identity_from None props = None
  ∨ (identity_from None props = Some GRPC_X509_CN_PROPERTY_NAME
     ∧ has_property TSI_X509_SUBJECT_COMMON_NAME_PEER_PROPERTY props = true)
  ∨ (identity_from None props = Some GRPC_X509_SAN_PROPERTY_NAME
     ∧ has_property TSI_X509_SUBJECT_ALTERNATIVE_NAME_PEER_PROPERTY props
       = true).
Proof.
  unfold identity_from.
  destruct (has_property TSI_X509_SUBJECT_ALTERNATIVE_NAME_PEER_PROPERTY _);
    [by right; right|].
  destruct (has_property TSI_X509_SUBJECT_COMMON_NAME_PEER_PROPERTY _);
    [by right; left | by left].
Qed.

(** A property of the peer that the table translates is found in the
    context by its translated name. *)
Lemma has_property_written name name' props :
  has_property name props = true →
  (∀ p, tsi_name p = Some name →
        ∃ q, auth_property_of p = Some q ∧ auth_name q = name') →
  existsb (λ q, String.eqb (auth_name q) name') (omap auth_property_of props)
  = true.
Proof.
  intros Hhas Htable. apply existsb_exists.
  apply existsb_exists in Hhas as (p & Hin & Hp).
  apply bool_decide_eq_true in Hp.
  destruct (Htable p Hp) as (q & Hq & Hname).
  exists q. split; [|by apply String.eqb_eq].
  apply list_elem_of_In, list_elem_of_omap. exists p.
  split; [by apply list_elem_of_In|done].
Qed.

(** What the extractor returns for a peer holding [props]. *)
Lemma grpc_ssl_peer_to_auth_context_returns peer props :
  TSI_X509_SUBJECT_COMMON_NAME_PEER_PROPERTY
  ≠ TSI_X509_SUBJECT_ALTERNATIVE_NAME_PEER_PROPERTY →
  tsi_peer_view peer = Some props →
  1 ≤ length props →
  grpc_ssl_peer_to_auth_context peer
  = Returns {| auth_properties :=
                 transport_security_type_property
                 :: omap auth_property_of props;
               peer_identity_property_name := designated_identity props |}.
Proof.
  intros Hne Hview Hlen. unfold grpc_ssl_peer_to_auth_context.
  pose proof (tsi_peer_view_length _ _ Hview) as Hcount.
  rewrite <- Hcount. rewrite (proj2 (Nat.leb_le _ _) Hlen). simpl.
  rewrite (peer_to_auth_context_loop_view _ _ Hview) by lia.
  rewrite drop_0, firstn_all. simpl.
  match goal with |- context [foldl ?f ?st props] =>
    rewrite (surjective_pairing (foldl f st props));
    rewrite (fold_identity props Hne), (fold_context props)
  end.
  cbn [auth_properties peer_identity_property_name app
       grpc_auth_context_add_cstring_property grpc_auth_context_add_property
       new_grpc_auth_context].
  fold transport_security_type_property. fold (designated_identity props).
  unfold designated_identity.
  destruct (identity_from_None_cases props) as [->|[[-> Hhas]|[-> Hhas]]];
    [done| |];
    unfold grpc_auth_context_set_peer_identity_property_name;
    cbn [auth_properties existsb];
    (erewrite has_property_written; [| exact Hhas |]);
    [by rewrite orb_true_r | | by rewrite orb_true_r | ].
  - intros p Hp. unfold auth_property_of. rewrite Hp.
    rewrite bool_decide_eq_true_2 by done. eauto.
  - intros p Hp. unfold auth_property_of. rewrite Hp.
    rewrite bool_decide_eq_false_2 by done.
    rewrite bool_decide_eq_true_2 by done. eauto.
Qed.

End ExtractorFacts.

(** ** Shallow peer reconstructor *)

Section ReconstructorFacts.
Context {K : property_names}.

Lemma count_auth_properties_length it : ∀ n,
  count_auth_properties it n = n + length it.
Proof.
  induction it as [|prop it IH]; intros n; simpl; [lia|].
  rewrite IH. lia.
Qed.

(** One write into the array: the view grows by the written entry, the
    array keeps its size. *)
Lemma add_shallow_auth_property_to_peer_view peer prop name seen :
  tsi_peer_view peer = Some seen →
  property_count peer < allocated_slots peer →
  ∃ peer',
    add_shallow_auth_property_to_peer peer prop name = Returns peer'
    ∧ tsi_peer_view peer'
      = Some (seen ++ [ {| tsi_name := Some name;
                           tsi_value := auth_value prop |} ])
    ∧ allocated_slots peer' = allocated_slots peer
    ∧ property_count peer' = S (property_count peer).
Proof.
  unfold tsi_peer_view, allocated_slots, add_shallow_auth_property_to_peer.
  destruct (properties peer) as [arr|]; [|simpl; lia].
  intros Hview Hlt. rewrite decide_True in Hview by lia.
  rewrite decide_True by done.
  eexists; split; [done|]. cbn [properties property_count].
  rewrite length_insert. split_and!; try done.
  rewrite decide_True by lia.
  erewrite take_S_r; [|by apply list_lookup_insert_eq].
  rewrite take_insert_ge by lia.
  apply mapM_Some. apply mapM_Some in Hview.
  apply Forall2_app; [done|]. by repeat constructor.
Qed.

Lemma shallow_peer_step_view peer prop seen :
  tsi_peer_view peer = Some seen →
  property_count peer < allocated_slots peer →
  ∃ peer',
    shallow_peer_step prop peer = Returns peer'
    ∧ tsi_peer_view peer' = Some (seen ++ option_list (tsi_property_of prop))
    ∧ allocated_slots peer' = allocated_slots peer
    ∧ property_count peer'
      = property_count peer + length (option_list (tsi_property_of prop)).
Proof.
  intros Hview Hlt. unfold shallow_peer_step, tsi_property_of.
  rewrite !strcmp_zero_decide.
  repeat case_bool_decide; simpl;
    try match goal with
        | |- context [add_shallow_auth_property_to_peer _ _ ?name] =>
            destruct (add_shallow_auth_property_to_peer_view
                        peer prop name seen Hview Hlt)
              as (peer' & Hadd & Hview' & Hslots' & Hcount');
            exists peer'; split_and!; [done..|lia]
        end.
  exists peer. rewrite app_nil_r. split_and!; [done..|lia].
Qed.

Lemma shallow_peer_loop_view it : ∀ peer seen,
  tsi_peer_view peer = Some seen →
  property_count peer + length it ≤ allocated_slots peer →
  ∃ peer',
    shallow_peer_loop it peer = Returns peer'
    ∧ tsi_peer_view peer' = Some (seen ++ omap tsi_property_of it)
    ∧ allocated_slots peer' = allocated_slots peer
    ∧ property_count peer'
      = property_count peer + length (omap tsi_property_of it).
Proof.
  induction it as [|prop it IH]; intros peer seen Hview Hroom.
  - exists peer. simpl. rewrite app_nil_r. split_and!; [done..|lia].
  - simpl in Hroom.
    destruct (shallow_peer_step_view peer prop seen Hview)
      as (peer1 & Hstep & Hview1 & Hslots1 & Hcount1); [lia|].
    assert (length (option_list (tsi_property_of prop)) ≤ 1) as Hone
      by (destruct (tsi_property_of prop); simpl; lia).
    destruct (IH peer1 _ Hview1) as (peer' & Hloop & Hview' & Hslots' & Hcount');
      [lia|].
    assert (omap tsi_property_of (prop :: it)
            = option_list (tsi_property_of prop) ++ omap tsi_property_of it)
      as -> by (simpl; by destruct (tsi_property_of prop)).
    exists peer'. cbn [shallow_peer_loop]. rewrite Hstep.
    unfold mbind, outcome_bind.
    rewrite Hloop, Hview', Hslots', Hslots1, Hcount', Hcount1.
    rewrite <- app_assoc, length_app. split_and!; [done..|lia].
Qed.

(** What the reconstructor returns: it never writes outside its array, the
    array has one slot per context property, and the entries written are
    the translations of the SAN, CN and PEM-certificate properties. *)
Lemma grpc_shallow_peer_from_ssl_auth_context_returns ctx :
  ∃ peer,
    grpc_shallow_peer_from_ssl_auth_context ctx = Returns peer
    ∧ tsi_peer_view peer = Some (omap tsi_property_of (auth_properties ctx))
    ∧ allocated_slots peer = length (auth_properties ctx)
    ∧ property_count peer
      = length (omap tsi_property_of (auth_properties ctx)).
Proof.
  unfold grpc_shallow_peer_from_ssl_auth_context,
    grpc_auth_context_property_iterator.
  rewrite count_auth_properties_length. simpl.
  case_decide as Hpos.
  - edestruct (shallow_peer_loop_view (auth_properties ctx)
                 {| properties :=
                      Some (replicate (length (auth_properties ctx)) None);
                    property_count := 0 |} [])
      as (peer & Hloop & Hview & Hslots & Hcount).
    + done.
    + unfold allocated_slots; cbn [properties property_count].
      by rewrite length_replicate.
    + unfold allocated_slots at 2 in Hslots.
      cbn [properties property_count] in Hslots, Hcount.
      rewrite length_replicate in Hslots.
      exists peer. split_and!; done.
  - destruct (auth_properties ctx); [|simpl in Hpos; lia].
    eexists; split_and!; done.
Qed.

(** The two tables are inverse on SAN, CN and PEM certificate, and nothing
    else comes back. *)
Lemma tsi_property_of_auth_property_of p :
  tsi_names_distinct K → grpc_names_distinct K →
  omap tsi_property_of (option_list (auth_property_of p))
  = if is_x509_property p then [p] else [].
Proof.
  intros Htsi Hgrpc. nodup_facts Htsi. nodup_facts Hgrpc.
  unfold auth_property_of, is_x509_property.
  destruct p as [[name|] value]; cbn [tsi_name tsi_value]; [|done].
  destruct (decide (name = TSI_X509_SUBJECT_COMMON_NAME_PEER_PROPERTY))
    as [->|Hcn]; [decide_names; unfold tsi_property_of; by decide_names|].
  destruct (decide (name = TSI_X509_SUBJECT_ALTERNATIVE_NAME_PEER_PROPERTY))
    as [->|Hsan]; [decide_names; unfold tsi_property_of; by decide_names|].
  destruct (decide (name = TSI_X509_PEM_CERT_PROPERTY))
    as [->|Hpem]; [decide_names; unfold tsi_property_of; by decide_names|].
  destruct (decide (name = TSI_SSL_SESSION_REUSED_PEER_PROPERTY))
    as [->|Hreused]; decide_names; try unfold tsi_property_of; by decide_names.
Qed.

Lemma round_trip_table props :
  tsi_names_distinct K → grpc_names_distinct K →
  omap tsi_property_of
    (transport_security_type_property :: omap auth_property_of props)
  = List.filter is_x509_property props.
Proof.
  intros Htsi Hgrpc.
  assert (tsi_property_of transport_security_type_property = None) as Htype.
  { nodup_facts Hgrpc. unfold tsi_property_of; simpl.
    repeat (case_bool_decide; simplify_eq/=; try done). }
  change (omap tsi_property_of (?q :: ?l))
    with (match tsi_property_of q with
          | Some y => y :: omap tsi_property_of l
          | None => omap tsi_property_of l
          end).
  rewrite Htype.
  induction props as [|p props IH]; [done|].
  assert (omap auth_property_of (p :: props)
          = option_list (auth_property_of p) ++ omap auth_property_of props)
    as -> by (simpl; by destruct (auth_property_of p)).
  rewrite omap_app, IH, (tsi_property_of_auth_property_of p Htsi Hgrpc).
  simpl. by destruct (is_x509_property p).
Qed.

End ReconstructorFacts.

(** ** The names of the released headers *)

Lemma grpc_header_names_tsi_distinct : tsi_names_distinct grpc_header_names.
Proof. apply (bool_decide_unpack _). by vm_compute. Qed.

Lemma grpc_header_names_grpc_distinct : grpc_names_distinct grpc_header_names.
Proof. apply (bool_decide_unpack _). by vm_compute. Qed.

(** ** Claims on the extractor and the reconstructor *)

Section PeerClaims.
Context {K : property_names}.

(** C3. [grpc_ssl_peer_to_auth_context] is a function of the ordered list of
    peer properties: two peers showing the same list get the same context.
    When the list holds a SAN property the designated identity is the SAN
    name, wherever a CN property stands in the list; the CN name is
    designated exactly when a CN property occurs and no SAN property
    does. *)
Theorem peer_identity_san_overrides_cn (peer : tsi_peer)
    (props : list tsi_peer_property) :
  tsi_names_distinct K →
  grpc_names_distinct K →
  tsi_peer_view peer = Some props →
  1 ≤ length props →
  ∃ ctx,
    grpc_ssl_peer_to_auth_context peer = Returns ctx
    ∧ (∀ peer', tsi_peer_view peer' = Some props →
                grpc_ssl_peer_to_auth_context peer' = Returns ctx)
    ∧ (has_property TSI_X509_SUBJECT_COMMON_NAME_PEER_PROPERTY props = true →
       has_property TSI_X509_SUBJECT_ALTERNATIVE_NAME_PEER_PROPERTY props
       = true →
       peer_identity_property_name ctx = Some GRPC_X509_SAN_PROPERTY_NAME)
    ∧ (peer_identity_property_name ctx = Some GRPC_X509_CN_PROPERTY_NAME ↔
       has_property TSI_X509_SUBJECT_COMMON_NAME_PEER_PROPERTY props = true
       ∧ has_property TSI_X509_SUBJECT_ALTERNATIVE_NAME_PEER_PROPERTY props
         = false).
Proof.
  intros Htsi Hgrpc Hview Hlen. nodup_facts Htsi. nodup_facts Hgrpc.
  assert (GRPC_X509_SAN_PROPERTY_NAME ≠ GRPC_X509_CN_PROPERTY_NAME) as Hsc
    by done.
  eexists. split; [by apply grpc_ssl_peer_to_auth_context_returns|].
  split; [intros peer' Hview';
          by apply grpc_ssl_peer_to_auth_context_returns|].
  cbn [peer_identity_property_name].
  unfold designated_identity, identity_from.
  destruct (has_property TSI_X509_SUBJECT_ALTERNATIVE_NAME_PEER_PROPERTY _),
    (has_property TSI_X509_SUBJECT_COMMON_NAME_PEER_PROPERTY _);
    (split; [done|split]); try done; try (intros [? ?]; done);
    intros [= Heq]; by destruct Hsc.
Qed.

(** C4. Round trip: for a peer with at least one property, the shallow peer
    rebuilt from the extracted context shows exactly the SAN, CN and
    PEM-certificate properties of the original peer, with their names and
    value bytes, in their order; no session-reused property is among
    them. *)
Theorem shallow_peer_round_trip (peer : tsi_peer)
    (props : list tsi_peer_property) :
  tsi_names_distinct K →
  grpc_names_distinct K →
  tsi_peer_view peer = Some props →
  1 ≤ length props →
  ∃ ctx shallow seen,
    grpc_ssl_peer_to_auth_context peer = Returns ctx
    ∧ grpc_shallow_peer_from_ssl_auth_context ctx = Returns shallow
    ∧ tsi_peer_view shallow = Some seen
    ∧ seen = List.filter is_x509_property props
    ∧ has_property TSI_SSL_SESSION_REUSED_PEER_PROPERTY seen = false.
Proof.
  intros Htsi Hgrpc Hview Hlen.
  pose proof Htsi as Hne. nodup_facts Hne.
  eexists.
  edestruct grpc_shallow_peer_from_ssl_auth_context_returns
    as (shallow & Hshallow & Hseen & _).
  exists shallow, (List.filter is_x509_property props).
  split; [by apply grpc_ssl_peer_to_auth_context_returns|].
  split; [exact Hshallow|].
  split; [by rewrite Hseen; cbn [auth_properties]; rewrite round_trip_table|].
  split; [done|].
  apply not_true_is_false. intros Hhas.
  apply existsb_exists in Hhas as (p & Hin & Hp).
  apply filter_In in Hin as [_ Hx509].
  apply bool_decide_eq_true in Hp. unfold is_x509_property in Hx509.
  rewrite Hp in Hx509.
  repeat (case_bool_decide; simplify_eq/=; try done).
Qed.

Lemma length_omap_tsi_property_of (l : list grpc_auth_property) :
  length (omap tsi_property_of l) = length (List.filter is_shallow_property l).
Proof.
  induction l as [|q l IH]; [done|].
  cbn [omap list_omap List.filter].
  unfold tsi_property_of at 1, is_shallow_property at 1.
  repeat case_bool_decide; simpl; by rewrite ?IH.
Qed.

(** C8 (amended). The counting pass counts every property of the context, so
    the array has one slot per context property; the second pass writes one
    entry per SAN, CN or PEM-certificate property.  The slots are an upper
    bound on the entries, and the two agree exactly when every property of
    the context is one of those three. *)
Theorem shallow_peer_slots_bound_entries (ctx : grpc_auth_context) :
  ∃ peer,
    grpc_shallow_peer_from_ssl_auth_context ctx = Returns peer
    ∧ allocated_slots peer = length (auth_properties ctx)
    ∧ property_count peer
      = length (List.filter is_shallow_property (auth_properties ctx))
    ∧ property_count peer ≤ allocated_slots peer
    ∧ (property_count peer = allocated_slots peer ↔
       Forall (λ q, is_shallow_property q = true) (auth_properties ctx)).
Proof.
  destruct (grpc_shallow_peer_from_ssl_auth_context_returns ctx)
    as (peer & Hret & _ & Hslots & Hcount).
  rewrite length_omap_tsi_property_of in Hcount.
  exists peer. rewrite Hslots, Hcount. split_and!; try done.
  - apply filter_length_le.
  - clear. induction (auth_properties ctx) as [|q l IH]; [done|].
    pose proof (filter_length_le is_shallow_property l) as Hle.
    rewrite Forall_cons. simpl.
    destruct (is_shallow_property q); simpl.
    + rewrite <- IH. split; [intros; split; [done|lia] | intros [_ ?]; lia].
    + split; [lia | intros [? _]; done].
Qed.

End PeerClaims.

Lemma peer_identity_san_overrides_cn_witness :
  ∃ ctx,
    grpc_ssl_peer_to_auth_context (K := grpc_header_names)
      (tsi_peer_of [sample_cn; sample_pem; sample_san])
    = Returns ctx
    ∧ peer_identity_property_name ctx = Some "x509_subject_alternative_name".
Proof.
  destruct (peer_identity_san_overrides_cn (K := grpc_header_names)
              (tsi_peer_of [sample_cn; sample_pem; sample_san])
              [sample_cn; sample_pem; sample_san]
              grpc_header_names_tsi_distinct grpc_header_names_grpc_distinct
              eq_refl ltac:(simpl; lia))
    as (ctx & Hctx & _ & Hsan & _).
  exists ctx. split; [exact Hctx|]. apply Hsan; reflexivity.
Defined.

Lemma shallow_peer_round_trip_witness :
  ∃ ctx shallow,
    grpc_ssl_peer_to_auth_context (K := grpc_header_names)
      (tsi_peer_of [sample_session_reused; sample_cn; sample_pem; sample_san])
    = Returns ctx
    ∧ grpc_shallow_peer_from_ssl_auth_context (K := grpc_header_names) ctx
      = Returns shallow
    ∧ tsi_peer_view shallow = Some [sample_cn; sample_pem; sample_san].
Proof.
  destruct (shallow_peer_round_trip (K := grpc_header_names)
              (tsi_peer_of
                 [sample_session_reused; sample_cn; sample_pem; sample_san])
              [sample_session_reused; sample_cn; sample_pem; sample_san]
              grpc_header_names_tsi_distinct grpc_header_names_grpc_distinct
              eq_refl ltac:(simpl; lia))
    as (ctx & shallow & seen & Hctx & Hshallow & Hview & Hseen & _).
  exists ctx, shallow. split; [exact Hctx|]. split; [exact Hshallow|].
  rewrite Hview, Hseen. reflexivity.
Defined.

(** C8, as stated, fails: for the context of a peer with a common name only
    the array has two slots and one entry is written. *)
Lemma shallow_peer_over_allocates :
  grpc_ssl_peer_to_auth_context (K := grpc_header_names)
    (tsi_peer_of [sample_cn])
  = Returns sample_cn_context
  ∧ ∃ peer,
      grpc_shallow_peer_from_ssl_auth_context (K := grpc_header_names)
        sample_cn_context
      = Returns peer
      ∧ allocated_slots peer = 2
      ∧ property_count peer = 1
      ∧ allocated_slots peer ≠ property_count peer.
Proof.
  split; [reflexivity|]. eexists. split; [reflexivity|]. by vm_compute.
Qed.

(** ** Name matcher *)

Lemma StringView_empty_iff (s : string) : StringView_empty s = true ↔ s = "".
Proof. by destruct s. Qed.

Lemma StringView_find_lt (c : ascii) (s : string) i :
  StringView_find c s = Some i → i < String.length s.
Proof.
  revert i. induction s as [|a s IH]; intros i; simpl; [done|].
  destruct (Ascii.eqb a c); [intros [= <-]; lia|].
  destruct (StringView_find c s) as [j|]; [|done].
  intros [= <-]. specialize (IH j eq_refl). lia.
Qed.

(** Removing the suffix that starts at the zone id keeps the prefix before
    it. *)
Lemma remove_zone_id_suffix (host : string) :
  match StringView_find "%"%char host with
  | Some zone_id =>
      StringView_remove_suffix (String.length host - zone_id) host
  | None => host
  end = stripZoneId host.
Proof.
  unfold stripZoneId, StringView_remove_suffix.
  destruct (StringView_find "%"%char host) as [i|] eqn:Hfind; [|done].
  apply StringView_find_lt in Hfind. f_equal. lia.
Qed.

Section NameMatcherClaims.
Variable SplitHostPort : string → string * string.
Variable tsi_ssl_peer_matches_name : tsi_peer → string → Z.

Lemma grpc_ssl_host_matches_name_unfold peer name :
  grpc_ssl_host_matches_name SplitHostPort tsi_ssl_peer_matches_name peer name
  = if StringView_empty (fst (SplitHostPort name)) then 0%Z
    else tsi_ssl_peer_matches_name peer
           (stripZoneId (fst (SplitHostPort name))).
Proof.
  unfold grpc_ssl_host_matches_name.
  destruct (SplitHostPort name) as [host port]; simpl.
  by rewrite remove_zone_id_suffix.
Qed.

(** C7 (amended). [grpc_ssl_host_matches_name] splits off the port, answers
    0 when the host left by the split is empty, and otherwise answers the
    engine's verdict on the host cut at its first [%]; the emptiness test
    comes before the cut.  It agrees with the spec's wording whenever the cut
    host is not empty, and when the split of ["[::1%eth0]:443"] leaves
    ["::1%eth0"] the engine is asked about ["::1"]. *)
Theorem host_matches_name_strips_port_and_zone_id peer name :
  let host := fst (SplitHostPort name) in
  (host = "" →
   grpc_ssl_host_matches_name SplitHostPort tsi_ssl_peer_matches_name
     peer name = 0%Z)
  ∧ (host ≠ "" →
     grpc_ssl_host_matches_name SplitHostPort tsi_ssl_peer_matches_name
       peer name
     = tsi_ssl_peer_matches_name peer (stripZoneId host))
  ∧ (stripZoneId host ≠ "" →
     grpc_ssl_host_matches_name SplitHostPort tsi_ssl_peer_matches_name
       peer name
     = hostMatchesPeerName_spec SplitHostPort tsi_ssl_peer_matches_name
         peer name)
  ∧ (fst (SplitHostPort "[::1%eth0]:443") = "::1%eth0" →
     grpc_ssl_host_matches_name SplitHostPort tsi_ssl_peer_matches_name
       peer "[::1%eth0]:443"
     = tsi_ssl_peer_matches_name peer "::1").
Proof.
  intros host. rewrite !grpc_ssl_host_matches_name_unfold.
  unfold hostMatchesPeerName_spec. fold host. split_and!.
  - by intros ->.
  - intros Hne. destruct (StringView_empty host) eqn:He; [|done].
    by apply StringView_empty_iff in He.
  - intros Hne.
    destruct (StringView_empty (stripZoneId host)) eqn:Hs;
      [by apply StringView_empty_iff in Hs|].
    destruct (StringView_empty host) eqn:He; [|done].
    apply StringView_empty_iff in He. by rewrite He in Hs.
  - by intros ->.
Qed.

(** C10. [grpc_ssl_check_alpn] answers [GRPC_ERROR_NONE] for every peer, so
    also for a peer without any property; its answer does not depend on the
    peer. *)
Theorem check_alpn_accepts_every_peer :
  (∀ peer, grpc_ssl_check_alpn peer = GRPC_ERROR_NONE)
  ∧ grpc_ssl_check_alpn {| properties := None; property_count := 0 |}
    = GRPC_ERROR_NONE
  ∧ (∀ peer peer', grpc_ssl_check_alpn peer = grpc_ssl_check_alpn peer').
Proof. by split_and!. Qed.

Context {K : property_names}.

(** C5. [grpc_ssl_check_call_host] returns [true] for every input.  The
    computed status only decides what stands behind [error] afterwards: the
    caller's value when the status is OK, a new error when it is not. *)
Theorem check_call_host_always_returns_true
    (host target_name overridden_target_name : string)
    (auth_context : grpc_auth_context) (error : grpc_error) :
  ∃ peer,
    grpc_shallow_peer_from_ssl_auth_context auth_context = Returns peer
    ∧ grpc_ssl_check_call_host SplitHostPort tsi_ssl_peer_matches_name
        host target_name overridden_target_name auth_context error
      = Returns
          (true,
           match call_host_status SplitHostPort tsi_ssl_peer_matches_name
                   peer host target_name overridden_target_name with
           | GRPC_SECURITY_OK => error
           | GRPC_SECURITY_ERROR =>
               GRPC_ERROR_CREATE "call host does not match SSL server name"
           end).
Proof.
  destruct (grpc_shallow_peer_from_ssl_auth_context_returns auth_context)
    as (peer & Hpeer & _).
  exists peer. split; [done|]. unfold grpc_ssl_check_call_host.
  rewrite Hpeer. simpl.
  by destruct (call_host_status _ _ _ _ _ _).
Qed.

(** C9. When the overridden target name is not empty and the host equals the
    target name, the status is OK and [error] is left as it was, whatever the
    engine says about the peer. *)
Theorem check_call_host_override_bypasses_matching
    (host target_name overridden_target_name : string)
    (auth_context : grpc_auth_context) (error : grpc_error) :
  overridden_target_name ≠ "" →
  host = target_name →
  ∃ peer,
    grpc_shallow_peer_from_ssl_auth_context auth_context = Returns peer
    ∧ call_host_status SplitHostPort tsi_ssl_peer_matches_name
        peer host target_name overridden_target_name
      = GRPC_SECURITY_OK
    ∧ grpc_ssl_check_call_host SplitHostPort tsi_ssl_peer_matches_name
        host target_name overridden_target_name auth_context error
      = Returns (true, error).
Proof.
  intros Hovr ->.
  destruct (grpc_shallow_peer_from_ssl_auth_context_returns auth_context)
    as (peer & Hpeer & _).
  assert (call_host_status SplitHostPort tsi_ssl_peer_matches_name
            peer target_name target_name overridden_target_name
          = GRPC_SECURITY_OK) as Hstatus.
  { unfold call_host_status. rewrite String.eqb_refl.
    destruct (StringView_empty overridden_target_name) eqn:He; [|done].
    by apply StringView_empty_iff in He. }
  exists peer. split_and!; [done..|].
  unfold grpc_ssl_check_call_host. rewrite Hpeer. simpl.
  by rewrite Hstatus.
Qed.

End NameMatcherClaims.

Lemma host_matches_name_strips_port_and_zone_id_witness :
  grpc_ssl_host_matches_name SplitHostPort_spec exact_san_engine
    sample_loopback_peer "[::1%eth0]:443"
  = exact_san_engine sample_loopback_peer "::1"
  ∧ exact_san_engine sample_loopback_peer "::1" = 1%Z.
Proof.
  split; [|reflexivity].
  apply (host_matches_name_strips_port_and_zone_id SplitHostPort_spec
           exact_san_engine sample_loopback_peer "[::1%eth0]:443").
  reflexivity.
Defined.

(** C7, as stated, fails: the host ["%eth0"] is not empty after the split and
    empty after the cut; the source asks the engine about the empty name where
    the claim answers false. *)
Lemma host_matches_name_asks_engine_about_empty_host :
  fst (SplitHostPort_spec "%eth0") = "%eth0"
  ∧ stripZoneId "%eth0" = ""
  ∧ grpc_ssl_host_matches_name SplitHostPort_spec exact_san_engine
      sample_empty_san_peer "%eth0" = 1%Z
  ∧ hostMatchesPeerName_spec SplitHostPort_spec exact_san_engine
      sample_empty_san_peer "%eth0" = 0%Z.
Proof. by vm_compute. Qed.

Lemma check_call_host_override_bypasses_matching_witness :
  rejecting_engine (tsi_peer_of [sample_cn]) "other.example.org" = 0%Z
  ∧ grpc_ssl_check_call_host (K := grpc_header_names)
      SplitHostPort_spec rejecting_engine
      "other.example.org" "other.example.org" "override.example.com"
      sample_cn_context GRPC_ERROR_NONE
    = Returns (true, GRPC_ERROR_NONE).
Proof.
  destruct (check_call_host_override_bypasses_matching (K := grpc_header_names)
              SplitHostPort_spec rejecting_engine
              "other.example.org" "other.example.org" "override.example.com"
              sample_cn_context GRPC_ERROR_NONE
              ltac:(discriminate) eq_refl)
    as (peer & Hpeer & Hstatus & Hcheck).
  split; [reflexivity | exact Hcheck].
Defined.

(** ** Default SSL root store *)

Lemma grpc_slice_from_copied_buffer_terminated (pem : string) :
  GRPC_SLICE_IS_EMPTY (grpc_slice_from_copied_buffer pem (strlen pem + 1))
  = false.
Proof.
  unfold GRPC_SLICE_IS_EMPTY, grpc_slice_from_copied_buffer.
  apply Nat.eqb_neq. rewrite length_take, length_app. simpl. lia.
Qed.

Lemma GRPC_SLICE_IS_EMPTY_iff (s : grpc_slice) :
  GRPC_SLICE_IS_EMPTY s = true ↔ s = [].
Proof. by destruct s. Qed.

Lemma GRPC_SLICE_IS_EMPTY_nil : GRPC_SLICE_IS_EMPTY [] = true.
Proof. done. Qed.

Lemma GRPC_SLICE_IS_EMPTY_cons b (s : grpc_slice) :
  GRPC_SLICE_IS_EMPTY (b :: s) = false.
Proof. done. Qed.

Section RootStoreFacts.
Variable env : environment.

#[local] Arguments GRPC_SLICE_IS_EMPTY : simpl never.
#[local] Arguments grpc_slice_from_copied_buffer : simpl never.

(** Run the code on the case at hand. *)
Ltac run_case :=
  repeat (simpl;
          rewrite ?GRPC_SLICE_IS_EMPTY_nil, ?GRPC_SLICE_IS_EMPTY_cons,
            ?grpc_slice_from_copied_buffer_terminated;
          try match goal with
              | H : ssl_roots_override_cb _ = _ |- _ => rewrite !H
              end).

(** Close a case in which the run is decided. *)
Ltac run_decided :=
  solve [ run_case; rewrite <- ?app_assoc;
          eexists; (split; [reflexivity|]); run_case; reflexivity ].

(** The run of [ComputePemRootCerts]: it leaves the statics alone, calls its
    sources as [root_source_calls] says, and returns [resolved_roots]. *)
Lemma ComputePemRootCerts_run (w : world) :
  let cb := ssl_roots_override_cb (globals w) in
  override_well_behaved cb →
  ∃ extra,
    runM (ComputePemRootCerts env) w
    = Returns (resolved_roots env cb,
               {| globals := globals w; calls := calls w ++ extra |})
    ∧ without_logs extra = root_source_calls env cb.
Proof.
  destruct w as [g cs]. intros cb Hwell. subst cb. simpl in *.
  unfold ComputePemRootCerts, resolved_roots, root_source_calls,
    tries_installed_file, tries_system_roots, tries_override,
    override_roots, override_answer, system_roots, installed_roots,
    configured_roots, tries_configured_file, first_nonempty.
  unfold override_well_behaved in Hwell.
  unfold load_system_root_certs, load_file, invoke_override_cb.
  (* step 1 *)
  destruct (0 <? strlen (grpc_default_ssl_roots_file_path env));
    [ destruct (grpc_load_file env (grpc_default_ssl_roots_file_path env) 1)
        as [[|msg1] [|b1 r1]]; try run_decided | ].
  (* step 2 *)
  all: destruct (ssl_roots_override_cb g) as [f|] eqn:Hcb;
    [ specialize (Hwell f eq_refl); run_case;
      destruct (f tt) as [[| |] [pem|]]; simpl in Hwell;
      try (by destruct Hwell); try run_decided | ].
  (* step 3 *)
  all: destruct (grpc_not_use_system_ssl_roots env);
    destruct (LoadSystemRootCerts env) as [|b3 r3]; try run_decided.
  (* step 4 *)
  all: destruct (grpc_load_file env (installed_roots_path env) 1)
         as [[|msg4] [|b4 r4]]; run_decided.
Qed.

(** C2. [ComputePemRootCerts] returns, leaves the statics alone, and tries
    its sources in the order configured file, override callback, OS trust
    store, installed file: the calls it makes are [root_source_calls], in
    which a later source is called only when every earlier one produced
    empty bytes (and the OS trust store only when the flag does not disable
    it), and the result is the first non-empty answer.  With an empty
    configured path, no callback, the OS trust store enabled and empty, and
    the installed file loaded without error, the result is the bytes of the
    installed file. *)
Theorem root_store_fallback_order (w : world) :
  let cb := ssl_roots_override_cb (globals w) in
  override_well_behaved cb →
  ∃ result w' extra,
    runM (ComputePemRootCerts env) w = Returns (result, w')
    ∧ globals w' = globals w
    ∧ calls w' = calls w ++ extra
    ∧ without_logs extra = root_source_calls env cb
    ∧ result = resolved_roots env cb
    ∧ (grpc_default_ssl_roots_file_path env = "" →
       cb = None →
       grpc_not_use_system_ssl_roots env = false →
       LoadSystemRootCerts env = grpc_empty_slice →
       ∀ bytes,
         grpc_load_file env (installed_roots_path env) 1
         = (GRPC_ERROR_NONE, bytes) →
         result = bytes
         ∧ without_logs extra
           = [ call_LoadSystemRootCerts;
               call_grpc_load_file (installed_roots_path env) 1 ]).
Proof.
  intros cb Hwell.
  destruct (ComputePemRootCerts_run w Hwell) as (extra & Hrun & Hcalls).
  eexists _, _, extra. split; [exact Hrun|]. split_and!; try done.
  intros Hpath Hcb Hflag Hos bytes Hfile. rewrite Hcalls. fold cb.
  unfold resolved_roots, root_source_calls, tries_installed_file,
    tries_system_roots, tries_override, override_roots, override_answer,
    system_roots, installed_roots, configured_roots, tries_configured_file,
    first_nonempty.
  rewrite Hpath, Hcb, Hflag, Hos, Hfile. simpl.
  by destruct bytes.
Qed.

(** C1 (amended). With an empty configured path and a registered callback
    that answers fail-permanently, [ComputePemRootCerts] calls the callback,
    then the OS trust store unless the flag disables it, and nothing else:
    it returns what the OS trust store yields when that is enabled, and
    empty bytes when it is disabled or yields nothing.  The installed file
    is never loaded, whatever it holds. *)
Theorem permanent_failure_skips_installed_file (w : world)
    (f : grpc_ssl_roots_override_callback) :
  grpc_default_ssl_roots_file_path env = "" →
  ssl_roots_override_cb (globals w) = Some f →
  fst (f tt) = GRPC_SSL_ROOTS_OVERRIDE_FAIL_PERMANENTLY →
  ∃ result extra,
    runM (ComputePemRootCerts env) w
    = Returns (result, {| globals := globals w; calls := calls w ++ extra |})
    ∧ result = (if grpc_not_use_system_ssl_roots env then grpc_empty_slice
                else LoadSystemRootCerts env)
    ∧ extra = call_ssl_roots_override_cb
              :: (if grpc_not_use_system_ssl_roots env then []
                  else [call_LoadSystemRootCerts])
    ∧ (grpc_not_use_system_ssl_roots env = true
       ∨ LoadSystemRootCerts env = grpc_empty_slice →
       result = grpc_empty_slice).
Proof.
  destruct w as [g cs]. simpl. intros Hpath Hcb Hperm.
  unfold ComputePemRootCerts, load_system_root_certs, load_file,
    invoke_override_cb.
  rewrite Hpath. run_case.
  destruct (f tt) as [answer pem]. simpl in Hperm. subst answer.
  destruct (grpc_not_use_system_ssl_roots env);
    [|destruct (LoadSystemRootCerts env) as [|b3 r3] eqn:Hos];
    run_case; rewrite <- ?app_assoc;
    eexists _, _; (split; [reflexivity|]); split_and!; try done;
    intros [?|?]; done.
Qed.

End RootStoreFacts.

Lemma root_store_fallback_order_witness :
  ∃ w',
    runM (ComputePemRootCerts (sample_environment [] sample_installed_roots))
      initial_world
    = Returns (sample_installed_roots, w').
Proof.
  destruct (root_store_fallback_order
              (sample_environment [] sample_installed_roots) initial_world)
    as (result & w' & extra & Hrun & _ & _ & _ & _ & Hcase).
  - intros f Hf. discriminate Hf.
  - destruct (Hcase eq_refl eq_refl eq_refl eq_refl
                sample_installed_roots eq_refl) as [Hresult _].
    exists w'. rewrite Hrun. by rewrite Hresult.
Defined.

Lemma permanent_failure_skips_installed_file_witness :
  ∃ w',
    runM (ComputePemRootCerts (sample_environment [] sample_installed_roots))
      (world_with_override override_roots_permanent_failure)
    = Returns (grpc_empty_slice, w').
Proof.
  destruct (permanent_failure_skips_installed_file
              (sample_environment [] sample_installed_roots)
              (world_with_override override_roots_permanent_failure)
              override_roots_permanent_failure eq_refl eq_refl eq_refl)
    as (result & extra & Hrun & _ & _ & Hempty).
  eexists. rewrite Hrun. by rewrite (Hempty (or_intror eq_refl)).
Defined.

(** C1, as stated, fails: with an empty configured path and a callback that
    answers fail-permanently, the OS trust store is still asked, and its bytes
    are returned. *)
Lemma permanent_failure_still_returns_os_roots :
  grpc_default_ssl_roots_file_path
    (sample_environment sample_os_roots sample_installed_roots) = ""
  ∧ override_roots_permanent_failure tt
    = (GRPC_SSL_ROOTS_OVERRIDE_FAIL_PERMANENTLY, None)
  ∧ ∃ w',
      runM (ComputePemRootCerts
              (sample_environment sample_os_roots sample_installed_roots))
        (world_with_override override_roots_permanent_failure)
      = Returns (sample_os_roots, w')
      ∧ sample_os_roots ≠ grpc_empty_slice.
Proof.
  split; [reflexivity|]. split; [reflexivity|].
  eexists. split; [by vm_compute | discriminate].
Qed.

(** ** Client handshaker factory *)

Lemma runM_bind {A B} (m : M A) (k : A → M B) (w : world) :
  runM (m ≫= k) w
  = match runM m w with
    | Returns (a, w') => runM (k a) w'
    | Aborts what => Aborts what
    | Undefined => Undefined
    end.
Proof. done. Qed.

Section OnlyAdds.
Variable P : call → bool.

Lemma only_adds_ret {A} (a : A) : only_adds P (mret a).
Proof.
  intros w a' w' [= <- <-]. exists []. by rewrite app_nil_r.
Qed.

Lemma only_adds_bind {A B} (m : M A) (k : A → M B) :
  only_adds P m → (∀ a, only_adds P (k a)) → only_adds P (m ≫= k).
Proof.
  intros Hm Hk w b w'. simpl.
  destruct (runM m w) as [[a w1]| |] eqn:Hrun; [|done..].
  intros Hrun'.
  destruct (Hm _ _ _ Hrun) as (extra1 & Hcalls1 & Hall1).
  destruct (Hk _ _ _ _ Hrun') as (extra2 & Hcalls2 & Hall2).
  exists (extra1 ++ extra2). rewrite Hcalls2, Hcalls1, app_assoc.
  split; [done|]. by rewrite forallb_app, Hall1, Hall2.
Qed.

Lemma only_adds_get_statics : only_adds P get_statics.
Proof. intros w a w' [= <- <-]. exists []. by rewrite app_nil_r. Qed.

Lemma only_adds_put_statics s : only_adds P (put_statics s).
Proof. intros w a w' [= <- <-]. exists []. by rewrite app_nil_r. Qed.

Lemma only_adds_modify_statics f : only_adds P (modify_statics f).
Proof.
  apply only_adds_bind; [apply only_adds_get_statics|].
  intros s. apply only_adds_put_statics.
Qed.

Lemma only_adds_record_call c : P c = true → only_adds P (record_call c).
Proof.
  intros Hc w a w' [= <- <-]. exists [c]. simpl. by rewrite Hc.
Qed.

Lemma only_adds_assert_M cond text : only_adds P (assert_M cond text).
Proof.
  intros w a w'. unfold assert_M, GPR_ASSERT; simpl.
  destruct cond; [|done]. intros [= <- <-]. exists []. by rewrite app_nil_r.
Qed.

Lemma only_adds_undefined_M {A} : only_adds P (@undefined_M A).
Proof. intros w a w'. done. Qed.

End OnlyAdds.

(** Decompose a computation made of the primitives above. *)
Ltac only_adds_steps :=
  repeat first
    [ apply only_adds_ret
    | apply only_adds_get_statics
    | apply only_adds_put_statics
    | apply only_adds_modify_statics
    | apply only_adds_assert_M
    | apply only_adds_undefined_M
    | apply only_adds_record_call; reflexivity
    | apply only_adds_bind; [|intros ?]
    | match goal with
      | |- only_adds _ (if ?b then _ else _) => destruct b
      | |- only_adds _ (match ?x with _ => _ end) => destruct x
      end ].

Section ClientFactoryClaims.
Variable env : environment.

Lemma GetPemRootCerts_creates_no_factory :
  only_adds (λ c, negb (is_factory_creation c)) (GetPemRootCerts env).
Proof.
  unfold GetPemRootCerts, InitRootStore, InitRootStoreOnce,
    ComputePemRootCerts, load_system_root_certs, load_file,
    invoke_override_cb, GRPC_LOG_IF_ERROR, gpr_log.
  only_adds_steps.
Qed.

(** C6. When no root PEM is supplied and the default roots are not
    available, the builder returns [GRPC_SECURITY_ERROR], leaves the output
    parameter as it was and never asks the engine for a factory.  When a
    root PEM is supplied, the default root store is left untouched, no root
    source is called, and the engine is asked once, with the supplied PEM
    and no root store. *)
Theorem client_factory_root_selection
    (pem_key_cert_pair : option tsi_ssl_pem_key_cert_pair)
    (ssl_session_cache : option tsi_ssl_session_cache)
    (handshaker_factory : option tsi_ssl_client_handshaker_factory)
    (w : world) :
  (∀ w1,
     runM (GetPemRootCerts env) w = Returns (None, w1) →
     ∃ extra,
       runM (grpc_ssl_tsi_client_handshaker_factory_init env
               pem_key_cert_pair None ssl_session_cache handshaker_factory) w
       = Returns ((GRPC_SECURITY_ERROR, handshaker_factory),
                  {| globals := globals w1; calls := calls w ++ extra |})
       ∧ forallb (λ c, negb (is_factory_creation c)) extra = true)
  ∧ (∀ pem,
       ∃ options,
         pem_root_certs options = Some pem
         ∧ root_store options = None
         ∧ let '(result, produced) :=
             tsi_create_ssl_client_handshaker_factory_with_options env
               options handshaker_factory in
           ∃ w' extra,
             runM (grpc_ssl_tsi_client_handshaker_factory_init env
                     pem_key_cert_pair (Some pem) ssl_session_cache
                     handshaker_factory) w
             = Returns ((if decide (result = TSI_OK) then GRPC_SECURITY_OK
                         else GRPC_SECURITY_ERROR, produced), w')
             ∧ root_store_statics (globals w') = root_store_statics (globals w)
             ∧ calls w' = calls w ++ extra
             ∧ without_logs extra
               = [ call_tsi_create_ssl_client_handshaker_factory_with_options
                     options ]).
Proof.
  split.
  - intros w1 Hroots.
    destruct (GetPemRootCerts_creates_no_factory _ _ _ Hroots)
      as (extra & Hcalls & Hnone).
    exists (extra ++ [call_gpr_log "Could not get default pem root certs."]).
    unfold grpc_ssl_tsi_client_handshaker_factory_init.
    rewrite runM_bind, Hroots. simpl.
    rewrite Hcalls, <- app_assoc. split; [done|].
    by rewrite forallb_app, Hnone.
  - intros pem. destruct w as [g cs].
    unfold grpc_ssl_tsi_client_handshaker_factory_init,
      client_handshaker_factory_init_with_roots, grpc_get_ssl_cipher_suites,
      init_cipher_suites, gpr_log.
    destruct (cipher_suites_once g) eqn:Honce; simpl; rewrite Honce; simpl;
      (match goal with
       | |- context [tsi_create_ssl_client_handshaker_factory_with_options
                       env ?o handshaker_factory] => exists o
       end);
      (split; [reflexivity|]); (split; [reflexivity|]);
      destruct (tsi_create_ssl_client_handshaker_factory_with_options _ _ _)
        as [[|description] produced]; simpl;
      eexists _, _; rewrite <- ?app_assoc;
      (split; [reflexivity|]); simpl; by split_and!.
Qed.

End ClientFactoryClaims.

Lemma client_factory_root_selection_witness :
  ∃ w',
    runM (grpc_ssl_tsi_client_handshaker_factory_init
            (sample_environment [] []) None None None (Some 3))
      initial_world
    = Returns ((GRPC_SECURITY_ERROR, Some 3), w').
Proof.
  destruct (client_factory_root_selection (sample_environment [] [])
              None None (Some 3) initial_world) as [Hunavailable _].
  edestruct Hunavailable as (extra & Hrun & _); [by vm_compute|].
  eexists. exact Hrun.
Defined.

(** * Further properties *)

(** ** Client certificate request types *)

(** X1. The translation of client-certificate request types is one-to-one on
    the five enumerators, and a value that is none of them is translated like
    "don't request". *)
Theorem client_certificate_request_type_one_to_one
    (t1 t2 : grpc_ssl_client_certificate_request_type) :
  is_enumerator t1 = true →
  is_enumerator t2 = true →
  grpc_get_tsi_client_certificate_request_type t1
  = grpc_get_tsi_client_certificate_request_type t2 →
  t1 = t2
  ∧ ∀ value,
      grpc_get_tsi_client_certificate_request_type
        (grpc_ssl_client_certificate_request_out_of_range value)
      = grpc_get_tsi_client_certificate_request_type
          GRPC_SSL_DONT_REQUEST_CLIENT_CERTIFICATE.
Proof.
  intros H1 H2 Heq. split; [|done].
  destruct t1, t2; simpl in *; congruence.
Qed.

Lemma client_certificate_request_type_one_to_one_witness :
  GRPC_SSL_REQUEST_CLIENT_CERTIFICATE_AND_VERIFY
  = GRPC_SSL_REQUEST_CLIENT_CERTIFICATE_AND_VERIFY
  ∧ ∀ value,
      grpc_get_tsi_client_certificate_request_type
        (grpc_ssl_client_certificate_request_out_of_range value)
      = TSI_DONT_REQUEST_CLIENT_CERTIFICATE.
Proof.
  exact (client_certificate_request_type_one_to_one
           GRPC_SSL_REQUEST_CLIENT_CERTIFICATE_AND_VERIFY
           GRPC_SSL_REQUEST_CLIENT_CERTIFICATE_AND_VERIFY
           eq_refl eq_refl eq_refl).
Defined.

(** ** Target names *)

Lemma strcmp_zero (s1 s2 : string) : strcmp s1 s2 = 0%Z ↔ s1 = s2.
Proof. rewrite <- strcmp_zero_iff. symmetry. apply Z.eqb_eq. Qed.

(** X2. For a comparison that answers 0 exactly on equal strings,
    [grpc_ssl_cmp_target_name] answers 0 exactly when the target names are
    equal and the overridden target names are equal; when the target names
    differ it answers their comparison, whatever the overridden names are. *)
Theorem cmp_target_name_zero_iff_same_pair
    (StringView_cmp : string → string → Z)
    (target_name other_target_name : string)
    (overridden_target_name other_overridden_target_name : string) :
  (∀ a b, StringView_cmp a b = 0%Z ↔ a = b) →
  (grpc_ssl_cmp_target_name StringView_cmp target_name other_target_name
     overridden_target_name other_overridden_target_name = 0%Z
   ↔ target_name = other_target_name
     ∧ overridden_target_name = other_overridden_target_name)
  ∧ (target_name ≠ other_target_name →
     grpc_ssl_cmp_target_name StringView_cmp target_name other_target_name
       overridden_target_name other_overridden_target_name
     = StringView_cmp target_name other_target_name).
Proof.
  intros Hcmp. unfold grpc_ssl_cmp_target_name.
  destruct (StringView_cmp target_name other_target_name =? 0)%Z eqn:Hc; simpl.
  - apply Z.eqb_eq, Hcmp in Hc. split; [|done].
    rewrite Hcmp. split; [by intros ->|by intros [_ ->]].
  - apply Z.eqb_neq in Hc. split; [|done]. split; [done|].
    intros [Ht _]. by apply Hcmp in Ht.
Qed.

Lemma cmp_target_name_zero_iff_same_pair_witness :
  grpc_ssl_cmp_target_name strcmp "a.com" "a.com" "" "x" ≠ 0%Z
  ∧ grpc_ssl_cmp_target_name strcmp "a.com" "a.com" "x" "x" = 0%Z.
Proof.
  split.
  - destruct (cmp_target_name_zero_iff_same_pair strcmp "a.com" "a.com" "" "x"
                strcmp_zero) as [Hzero _].
    intros Hc. apply Hzero in Hc. destruct Hc as [_ Hne]. discriminate Hne.
  - destruct (cmp_target_name_zero_iff_same_pair strcmp "a.com" "a.com" "x" "x"
                strcmp_zero) as [Hzero _].
    apply Hzero. split; reflexivity.
Defined.

(** ** Peer identity extractor, further *)

Section ExtractorInvariant.
Context {K : property_names}.

Lemma step_keeps_identity_present p st :
  identity_is_present st →
  identity_is_present (peer_to_auth_context_step p st).
Proof.
  destruct st as [identity ctx]. unfold identity_is_present. simpl.
  intros Hinv name.
  assert (∀ n v, identity = Some n →
            existsb (λ q, String.eqb (auth_name q) n)
              (auth_properties (grpc_auth_context_add_property ctx v (tsi_value p)))
            = true) as Hold.
  { intros n v Hn. simpl. rewrite existsb_app, (Hinv n Hn). done. }
  assert (∀ n,
            existsb (λ q, String.eqb (auth_name q) n)
              (auth_properties (grpc_auth_context_add_property ctx n (tsi_value p)))
            = true) as Hnew.
  { intros n. simpl. rewrite existsb_app. simpl.
    by rewrite String.eqb_refl, orb_true_r. }
  destruct (tsi_name p) as [pname|]; [|by apply Hinv].
  repeat match goal with
         | |- context [(strcmp ?a ?b =? 0)%Z] =>
             destruct (strcmp a b =? 0)%Z
         end; cbn [fst snd]; try (by apply Hinv); try (by apply Hold).
  - destruct identity as [n|]; [by apply Hold|]. intros [= <-]. apply Hnew.
  - intros [= <-]. apply Hnew.
Qed.

Lemma fold_keeps_identity_present props : ∀ st,
  identity_is_present st →
  identity_is_present
    (foldl (λ st p, peer_to_auth_context_step p st) st props).
Proof.
  induction props as [|p props IH]; intros st Hst; [done|].
  cbn [foldl]. by apply IH, step_keeps_identity_present.
Qed.

(** What the extractor returns for a peer showing [props], whatever the
    header constants are. *)
Lemma grpc_ssl_peer_to_auth_context_properties (peer : tsi_peer)
    (props : list tsi_peer_property) :
  tsi_peer_view peer = Some props →
  1 ≤ length props →
  ∃ ctx,
    grpc_ssl_peer_to_auth_context peer = Returns ctx
    ∧ auth_properties ctx
      = transport_security_type_property :: omap auth_property_of props
    ∧ ∀ name,
        peer_identity_property_name ctx = Some name →
        ∃ q, q ∈ auth_properties ctx ∧ auth_name q = name.
Proof.
  intros Hview Hlen. unfold grpc_ssl_peer_to_auth_context.
  pose proof (tsi_peer_view_length _ _ Hview) as Hcount.
  rewrite <- Hcount. rewrite (proj2 (Nat.leb_le _ _) Hlen). simpl.
  rewrite (peer_to_auth_context_loop_view _ _ Hview) by lia.
  rewrite drop_0, firstn_all. simpl.
  match goal with |- context [foldl ?f (?i, ?c) props] =>
    pose proof (fold_keeps_identity_present props (i, c)) as Hinv;
    pose proof (fold_context props i c) as Hctx;
    destruct (foldl f (i, c) props) as [identity ctx]
  end.
  simpl in Hctx. subst ctx.
  unfold identity_is_present in Hinv. cbn [fst snd] in Hinv.
  specialize (Hinv ltac:(done)).
  destruct identity as [name|].
  - specialize (Hinv name eq_refl).
    unfold grpc_auth_context_set_peer_identity_property_name.
    cbn [auth_properties] in *. rewrite Hinv. simpl.
    eexists. split; [done|]. split; [done|].
    cbn [peer_identity_property_name auth_properties].
    intros ? [= <-].
    apply existsb_exists in Hinv as (q & Hin & Hq).
    exists q. split; [by apply list_elem_of_In | by apply String.eqb_eq].
  - eexists. split; [done|]. split; [done|]. intros name; simpl. done.
Qed.


(** X3. For a peer showing at least one property the extractor returns,
    whatever the header constants are: the assertion on the designated
    identity never fails.  The context starts with the transport-security-type
    property, continues with the translations of the recognised properties in
    the order of the peer (properties with a null or another name leave no
    trace), and its designated identity, if any, names a property of the
    context. *)
Theorem peer_to_auth_context_returns_well_formed_context (peer : tsi_peer)
    (props : list tsi_peer_property) :
  tsi_peer_view peer = Some props →
  1 ≤ length props →
  ∃ ctx,
    grpc_ssl_peer_to_auth_context peer = Returns ctx
    ∧ auth_properties ctx
      = transport_security_type_property :: omap auth_property_of props
    ∧ ∀ name,
        peer_identity_property_name ctx = Some name →
        ∃ q, q ∈ auth_properties ctx ∧ auth_name q = name.
Proof. apply grpc_ssl_peer_to_auth_context_properties. Qed.

End ExtractorInvariant.

Lemma peer_to_auth_context_returns_well_formed_context_witness :
  ∃ ctx,
    grpc_ssl_peer_to_auth_context (K := grpc_header_names)
      (tsi_peer_of [sample_session_reused; sample_cn])
    = Returns ctx
    ∧ length (auth_properties ctx) = 3.
Proof.
  destruct (peer_to_auth_context_returns_well_formed_context
              (K := grpc_header_names)
              (tsi_peer_of [sample_session_reused; sample_cn])
              [sample_session_reused; sample_cn] eq_refl ltac:(simpl; lia))
    as (ctx & Hctx & Hprops & _).
  exists ctx. split; [exact Hctx|]. rewrite Hprops. reflexivity.
Defined.

(** ** Name matcher, further *)

Lemma StringView_find_prefix (c : ascii) (s : string) : ∀ i,
  StringView_find c s = Some i → StringView_find c (substring 0 i s) = None.
Proof.
  induction s as [|a s IH]; intros i; simpl; [done|].
  destruct (Ascii.eqb a c) eqn:Ha; [by intros [= <-]|].
  destruct (StringView_find c s) as [j|]; [|done].
  intros [= <-]. simpl. by rewrite Ha, (IH j eq_refl).
Qed.

Lemma stripZoneId_no_percent (host : string) :
  StringView_find "%"%char (stripZoneId host) = None.
Proof.
  unfold stripZoneId.
  destruct (StringView_find "%"%char host) as [i|] eqn:Hfind; [|done].
  by apply StringView_find_prefix.
Qed.

Section NameMatcherFurther.
Variable SplitHostPort : string → string * string.
Variable tsi_ssl_peer_matches_name : tsi_peer → string → Z.

(** X4. The name matcher looks at the requested name only through the host
    left by the split, cut at its first [%]: two names with non-empty hosts
    that agree up to the zone id get the same verdict, whatever their ports
    and zone ids.  The engine's answers on names that contain [%] have no
    influence on the verdict. *)
Theorem host_matches_name_ignores_port_and_zone_id (peer : tsi_peer)
    (name1 name2 : string) :
  fst (SplitHostPort name1) ≠ "" →
  fst (SplitHostPort name2) ≠ "" →
  stripZoneId (fst (SplitHostPort name1))
  = stripZoneId (fst (SplitHostPort name2)) →
  grpc_ssl_host_matches_name SplitHostPort tsi_ssl_peer_matches_name
    peer name1
  = grpc_ssl_host_matches_name SplitHostPort tsi_ssl_peer_matches_name
      peer name2
  ∧ ∀ other_engine : tsi_peer → string → Z,
      (∀ host, StringView_find "%"%char host = None →
               other_engine peer host = tsi_ssl_peer_matches_name peer host) →
      grpc_ssl_host_matches_name SplitHostPort other_engine peer name1
      = grpc_ssl_host_matches_name SplitHostPort tsi_ssl_peer_matches_name
          peer name1.
Proof.
  intros Hne1 Hne2 Hsame. rewrite !grpc_ssl_host_matches_name_unfold.
  destruct (StringView_empty (fst (SplitHostPort name1))) eqn:He1;
    [by apply StringView_empty_iff in He1|].
  destruct (StringView_empty (fst (SplitHostPort name2))) eqn:He2;
    [by apply StringView_empty_iff in He2|].
  split; [by rewrite Hsame|].
  intros other Hother. rewrite grpc_ssl_host_matches_name_unfold, He1.
  apply Hother, stripZoneId_no_percent.
Qed.


Context {K : property_names}.

(** X6. After a handshake, the call-host check on the context extracted from
    a peer agrees with the name matcher on the peer itself: for an engine that
    reads only the SAN, CN and PEM-certificate properties and with no
    overridden target name, the check leaves [error] alone exactly when the
    name matcher accepts the host for the original peer. *)
Theorem check_call_host_agrees_with_name_matcher (peer : tsi_peer)
    (props : list tsi_peer_property) (host target_name : string)
    (error : grpc_error) :
  tsi_names_distinct K →
  grpc_names_distinct K →
  reads_x509_properties_only tsi_ssl_peer_matches_name →
  tsi_peer_view peer = Some props →
  1 ≤ length props →
  ∃ ctx,
    grpc_ssl_peer_to_auth_context peer = Returns ctx
    ∧ grpc_ssl_check_call_host SplitHostPort tsi_ssl_peer_matches_name
        host target_name "" ctx error
      = Returns
          (true,
           if (grpc_ssl_host_matches_name SplitHostPort
                 tsi_ssl_peer_matches_name peer host =? 0)%Z
           then GRPC_ERROR_CREATE "call host does not match SSL server name"
           else error).
Proof.
  intros Htsi Hgrpc Hengine Hview Hlen.
  pose proof Htsi as Hne. nodup_facts Hne.
  eexists. split; [by apply grpc_ssl_peer_to_auth_context_returns|].
  edestruct grpc_shallow_peer_from_ssl_auth_context_returns
    as (shallow & Hshallow & Hseen & _).
  unfold grpc_ssl_check_call_host. rewrite Hshallow. simpl.
  cbn [auth_properties] in Hseen. rewrite round_trip_table in Hseen by done.
  assert (∀ name, tsi_ssl_peer_matches_name shallow name
                  = tsi_ssl_peer_matches_name peer name) as Hsame.
  { apply (Hengine _ _ _ _ Hseen Hview).
    clear. induction props as [|p l IH]; [done|]. simpl.
    destruct (is_x509_property p) eqn:Hp; simpl; rewrite ?Hp; by rewrite IH. }
  unfold call_host_status. rewrite !grpc_ssl_host_matches_name_unfold.
  destruct (StringView_empty (fst (SplitHostPort host))); simpl; [done|].
  rewrite Hsame.
  by destruct (tsi_ssl_peer_matches_name peer _ =? 0)%Z.
Qed.

End NameMatcherFurther.

Lemma exact_san_engine_reads_x509_properties_only :
  reads_x509_properties_only (K := grpc_header_names) exact_san_engine.
Proof.
  intros peer1 peer2 props1 props2 Hv1 Hv2 Hfilter name.
  unfold exact_san_engine. rewrite Hv1, Hv2.
  assert (∀ f l,
            (∀ p, f p = true →
                  is_x509_property (K := grpc_header_names) p = true) →
            existsb f (List.filter (is_x509_property (K := grpc_header_names)) l)
            = existsb f l) as Hsub.
  { intros f l Hf. induction l as [|p l IH]; [done|]. simpl.
    destruct (is_x509_property p) eqn:Hp; simpl; rewrite IH; [done|].
    destruct (f p) eqn:Hfp; [|done]. apply Hf in Hfp. congruence. }
  rewrite <- (Hsub _ props1), <- (Hsub _ props2), Hfilter; [done|..];
    intros p Hp; apply andb_true_iff in Hp as [Hp _];
    unfold is_x509_property; simpl; by rewrite Hp.
Qed.

Lemma host_matches_name_ignores_port_and_zone_id_witness :
  grpc_ssl_host_matches_name SplitHostPort_spec exact_san_engine
    sample_loopback_peer "[::1%eth0]:443"
  = grpc_ssl_host_matches_name SplitHostPort_spec exact_san_engine
      sample_loopback_peer "[::1%lo]:8080".
Proof.
  destruct (host_matches_name_ignores_port_and_zone_id SplitHostPort_spec
              exact_san_engine sample_loopback_peer
              "[::1%eth0]:443" "[::1%lo]:8080"
              ltac:(discriminate) ltac:(discriminate) eq_refl) as [Hsame _].
  exact Hsame.
Defined.


Lemma check_call_host_agrees_with_name_matcher_witness :
  ∃ ctx,
    grpc_ssl_peer_to_auth_context (K := grpc_header_names)
      (tsi_peer_of [sample_session_reused; sample_san])
    = Returns ctx
    ∧ grpc_ssl_check_call_host (K := grpc_header_names)
        SplitHostPort_spec exact_san_engine
        "*.example.com" "other.example.org" "" ctx GRPC_ERROR_NONE
      = Returns (true, GRPC_ERROR_NONE).
Proof.
  destruct (check_call_host_agrees_with_name_matcher
              SplitHostPort_spec exact_san_engine (K := grpc_header_names)
              (tsi_peer_of [sample_session_reused; sample_san])
              [sample_session_reused; sample_san]
              "*.example.com" "other.example.org" GRPC_ERROR_NONE
              grpc_header_names_tsi_distinct grpc_header_names_grpc_distinct
              exact_san_engine_reads_x509_properties_only
              eq_refl ltac:(simpl; lia))
    as (ctx & Hctx & Hcheck).
  exists ctx. split; [exact Hctx | exact Hcheck].
Defined.

(** ** Default SSL root store, further *)

Section Keeps.
Variable I : statics → Prop.








End Keeps.


Section RootStoreFurther.
Variable env : environment.

#[local] Arguments GRPC_SLICE_IS_EMPTY : simpl never.



#[local] Opaque ComputePemRootCerts.






#[local] Transparent ComputePemRootCerts.

Lemma length_list_byte_of_string (s : string) :
  length (list_byte_of_string s) = String.length s.
Proof.
  unfold list_byte_of_string. rewrite List.length_map.
  induction s as [|a s IH]; simpl; [done|]. by rewrite IH.
Qed.

Lemma grpc_slice_from_copied_buffer_with_terminator (pem : string) :
  grpc_slice_from_copied_buffer pem (strlen pem + 1)
  = list_byte_of_string pem ++ [x00].
Proof.
  unfold grpc_slice_from_copied_buffer, strlen. apply take_ge.
  rewrite length_app, length_list_byte_of_string. simpl. lia.
Qed.

(** X9. When the configured file gives no bytes and the registered callback
    answers OK with a string, the roots are the bytes of that string followed
    by its terminating zero byte, so they are never empty; neither the OS
    trust store nor the installed file is consulted. *)
Theorem override_ok_roots_are_the_terminated_string (w : world)
    (f : grpc_ssl_roots_override_callback) (pem : string) :
  configured_roots env = grpc_empty_slice →
  ssl_roots_override_cb (globals w) = Some f →
  f tt = (GRPC_SSL_ROOTS_OVERRIDE_OK, Some pem) →
  ∃ extra,
    runM (ComputePemRootCerts env) w
    = Returns (list_byte_of_string pem ++ [x00],
               {| globals := globals w; calls := calls w ++ extra |})
    ∧ without_logs extra
      = (if tries_configured_file env
         then [call_grpc_load_file (grpc_default_ssl_roots_file_path env) 1]
         else [])
        ++ [call_ssl_roots_override_cb].
Proof.
  intros Hconf Hcb Hf.
  destruct (ComputePemRootCerts_run env w) as (extra & Hrun & Hcalls).
  { rewrite Hcb. intros f0 [= <-]. by rewrite Hf. }
  exists extra. rewrite Hrun, Hcalls, Hcb.
  unfold resolved_roots, root_source_calls, tries_installed_file,
    tries_system_roots, tries_override, override_roots, first_nonempty.
  rewrite Hconf, Hf. unfold grpc_empty_slice.
  rewrite <- grpc_slice_from_copied_buffer_with_terminator.
  pose proof (grpc_slice_from_copied_buffer_terminated pem) as Hne.
  generalize dependent (grpc_slice_from_copied_buffer pem (strlen pem + 1)).
  intros copied Hne.
  rewrite (bool_decide_eq_true_2 (is_Some (Some f))) by done.
  repeat (simpl; rewrite ?GRPC_SLICE_IS_EMPTY_nil, ?Hne). done.
Qed.

(** X10. When the configured file gives no bytes and the registered callback
    answers OK without leaving a string, [ComputePemRootCerts] does not
    return: the assertion on the string fails. *)
Theorem override_ok_without_string_aborts (w : world)
    (f : grpc_ssl_roots_override_callback) :
  configured_roots env = grpc_empty_slice →
  ssl_roots_override_cb (globals w) = Some f →
  f tt = (GRPC_SSL_ROOTS_OVERRIDE_OK, None) →
  runM (ComputePemRootCerts env) w = Aborts "pem_root_certs != nullptr".
Proof.
  destruct w as [g cs]. simpl. intros Hconf Hcb Hf.
  unfold configured_roots, tries_configured_file in Hconf.
  unfold ComputePemRootCerts, load_file, invoke_override_cb.
  destruct (0 <? strlen (grpc_default_ssl_roots_file_path env));
    [destruct (grpc_load_file env (grpc_default_ssl_roots_file_path env) 1)
       as [[|msg] loaded]; simpl in Hconf; subst loaded|];
    simpl; rewrite Hcb; simpl; by rewrite Hf.
Qed.

(** X11. The cipher suites are read from the configuration at the first call
    of [grpc_get_ssl_cipher_suites] and kept: every later call returns the
    same string without any call to the outside, also when the configuration
    has changed. *)
Theorem cipher_suites_read_once (other_env : environment) (w : world) :
  cipher_suites_once (globals w) = false →
  ∃ w1,
    runM (grpc_get_ssl_cipher_suites env) w
    = Returns (Some (grpc_ssl_cipher_suites env), w1)
    ∧ calls w1 = calls w
    ∧ runM (grpc_get_ssl_cipher_suites other_env) w1
      = Returns (Some (grpc_ssl_cipher_suites env), w1).
Proof.
  destruct w as [g cs]. simpl. intros Honce.
  unfold grpc_get_ssl_cipher_suites, init_cipher_suites. simpl.
  rewrite Honce. simpl. eexists. split; [reflexivity|]. by simpl.
Qed.

End RootStoreFurther.



Lemma override_ok_roots_are_the_terminated_string_witness :
  ∃ w',
    runM (ComputePemRootCerts
            (sample_environment sample_os_roots sample_installed_roots))
      (world_with_override override_roots_ok)
    = Returns (list_byte_of_string "OVERRIDDEN ROOTS" ++ [x00], w').
Proof.
  destruct (override_ok_roots_are_the_terminated_string
              (sample_environment sample_os_roots sample_installed_roots)
              (world_with_override override_roots_ok) override_roots_ok
              "OVERRIDDEN ROOTS" eq_refl eq_refl eq_refl)
    as (extra & Hrun & _).
  eexists. exact Hrun.
Defined.

Lemma override_ok_without_string_aborts_witness :
  runM (ComputePemRootCerts
          (sample_environment sample_os_roots sample_installed_roots))
    (world_with_override override_roots_ok_without_string)
  = Aborts "pem_root_certs != nullptr".
Proof.
  exact (override_ok_without_string_aborts
           (sample_environment sample_os_roots sample_installed_roots)
           (world_with_override override_roots_ok_without_string)
           override_roots_ok_without_string eq_refl eq_refl eq_refl).
Defined.

Lemma cipher_suites_read_once_witness :
  ∃ w1,
    runM (grpc_get_ssl_cipher_suites (sample_environment [] [])) initial_world
    = Returns (Some (grpc_ssl_cipher_suites (sample_environment [] [])), w1)
    ∧ runM (grpc_get_ssl_cipher_suites
              (with_cipher_suites "RC4-SHA" (sample_environment [] []))) w1
      = Returns (Some (grpc_ssl_cipher_suites (sample_environment [] [])), w1).
Proof.
  destruct (cipher_suites_read_once (sample_environment [] [])
              (with_cipher_suites "RC4-SHA" (sample_environment [] []))
              initial_world eq_refl) as (w1 & Hfirst & _ & Hlater).
  exists w1. split; [exact Hfirst | exact Hlater].
Defined.

(** ** Handshaker factories, further *)

Section FactoriesFurther.
Variable env : environment.

(** The loop writes the slots [i], [i+1], ... of the array in turn. *)
Lemma fill_alpn_protocol_strings_loop_run (todo : nat) :
  ∀ i (arr : list (option string)),
    i + todo = length arr →
    fill_alpn_protocol_strings_loop env todo i arr
    = Returns (take i arr
               ++ (Some <$> (grpc_chttp2_get_alpn_version_index env
                             <$> seq i todo))).
Proof.
  induction todo as [|todo IH]; intros i arr Hlen; simpl.
  - rewrite app_nil_r, take_ge by lia. done.
  - rewrite decide_True by lia. rewrite IH by (rewrite length_insert; lia).
    f_equal. erewrite take_S_r by (apply list_lookup_insert_eq; lia).
    rewrite take_insert_ge by lia. by rewrite <- app_assoc.
Qed.

(** X12. [grpc_fill_alpn_protocol_strings] allocates one slot per ALPN
    version and its loop writes every slot, in index order and within the
    array: the array it returns holds the versions 0, 1, ... and the count it
    leaves behind the pointer is the array's length.  With a null pointer it
    does not return. *)
Theorem fill_alpn_protocol_strings_fills_every_slot (old : nat) :
  grpc_fill_alpn_protocol_strings_array env (Some old)
  = Returns (Some <$> fst (grpc_fill_alpn_protocol_strings env),
             snd (grpc_fill_alpn_protocol_strings env))
  ∧ length (fst (grpc_fill_alpn_protocol_strings env))
    = snd (grpc_fill_alpn_protocol_strings env)
  ∧ (∀ i, i < grpc_chttp2_num_alpn_versions env →
          fst (grpc_fill_alpn_protocol_strings env) !! i
          = Some (grpc_chttp2_get_alpn_version_index env i))
  ∧ grpc_fill_alpn_protocol_strings_array env None
    = Aborts "num_alpn_protocols != nullptr".
Proof.
  unfold grpc_fill_alpn_protocol_strings_array, grpc_fill_alpn_protocol_strings.
  simpl. split_and!; [|by rewrite length_fmap, length_seq| |done].
  - rewrite fill_alpn_protocol_strings_loop_run
      by (rewrite length_replicate; lia).
    by rewrite take_0.
  - intros i Hi. rewrite list_lookup_fmap, lookup_seq_lt by done. done.
Qed.

(** X13. With a root PEM supplied, the options the client builder hands to
    the engine carry the key/certificate pair only when both its private key
    and its certificate chain are present (an incomplete pair is dropped), the
    session cache as given, every ALPN version with their count, and the
    cipher suites of the first use. *)
Theorem client_factory_options_with_supplied_pem
    (key_cert_pair : option tsi_ssl_pem_key_cert_pair)
    (pem : string)
    (ssl_session_cache : option tsi_ssl_session_cache)
    (handshaker_factory : option tsi_ssl_client_handshaker_factory)
    (w : world) :
  ∃ options outcome w' extra,
    runM (grpc_ssl_tsi_client_handshaker_factory_init env
            key_cert_pair (Some pem) ssl_session_cache handshaker_factory) w
    = Returns (outcome, w')
    ∧ calls w' = calls w ++ extra
    ∧ without_logs extra
      = [ call_tsi_create_ssl_client_handshaker_factory_with_options options ]
    ∧ pem_key_cert_pair options
      = (if complete_key_cert_pair key_cert_pair then key_cert_pair else None)
    ∧ session_cache options = ssl_session_cache
    ∧ alpn_protocols options
      = Some (grpc_chttp2_get_alpn_version_index env
              <$> seq 0 (grpc_chttp2_num_alpn_versions env))
    ∧ num_alpn_protocols options = grpc_chttp2_num_alpn_versions env
    ∧ cipher_suites options
      = (if cipher_suites_once (globals w)
         then static_cipher_suites (globals w)
         else Some (grpc_ssl_cipher_suites env)).
Proof.
  destruct w as [g cs].
  unfold grpc_ssl_tsi_client_handshaker_factory_init,
    client_handshaker_factory_init_with_roots, grpc_get_ssl_cipher_suites,
    init_cipher_suites, gpr_log.
  destruct (cipher_suites_once g) eqn:Honce; simpl; rewrite Honce; simpl;
    (match goal with
     | |- context [tsi_create_ssl_client_handshaker_factory_with_options
                     env ?o handshaker_factory] => exists o
     end);
    destruct (tsi_create_ssl_client_handshaker_factory_with_options _ _ _)
      as [[|description] produced]; simpl;
    eexists _, _, _; rewrite <- ?app_assoc;
    (split; [reflexivity|]); simpl; split_and!; try done;
    by destruct key_cert_pair as [[[?|] [?|]]|].
Qed.



(** X15. The server builder asks the engine once, with the key/certificate
    pairs and the client root PEM exactly as given (a null PEM stays null: the
    default roots are not substituted and the default root store is never
    touched), the translated client-certificate request type, every ALPN
    version, and the ALPN count reduced modulo 2^16 by the cast to
    [uint16_t].  Its status is OK exactly when the engine answers [TSI_OK]; it
    makes no call to a root source. *)
Theorem server_factory_passes_arguments_through
    (create :
       tsi_ssl_server_handshaker_options →
       option tsi_ssl_server_handshaker_factory →
       tsi_result * option tsi_ssl_server_handshaker_factory)
    (key_cert_pairs : option (list tsi_ssl_pem_key_cert_pair))
    (num_pairs : nat) (pem_root_certs : option string)
    (request : grpc_ssl_client_certificate_request_type)
    (handshaker_factory : option tsi_ssl_server_handshaker_factory)
    (w : world) :
  ∃ options,
    pem_key_cert_pairs options = key_cert_pairs
    ∧ num_key_cert_pairs options = num_pairs
    ∧ pem_client_root_certs options = pem_root_certs
    ∧ client_certificate_request options
      = grpc_get_tsi_client_certificate_request_type request
    ∧ server_alpn_protocols options
      = Some (grpc_chttp2_get_alpn_version_index env
              <$> seq 0 (grpc_chttp2_num_alpn_versions env))
    ∧ server_num_alpn_protocols options
      = (Z.of_nat (grpc_chttp2_num_alpn_versions env) mod 65536)%Z
    ∧ let '(result, produced) := create options handshaker_factory in
      ∃ w' extra,
        runM (grpc_ssl_tsi_server_handshaker_factory_init env create
                key_cert_pairs num_pairs pem_root_certs request
                handshaker_factory) w
        = Returns ((if decide (result = TSI_OK) then GRPC_SECURITY_OK
                    else GRPC_SECURITY_ERROR, produced), w')
        ∧ root_store_statics (globals w') = root_store_statics (globals w)
        ∧ calls w' = calls w ++ extra
        ∧ without_logs extra = [].
Proof.
  destruct w as [g cs].
  unfold grpc_ssl_tsi_server_handshaker_factory_init,
    grpc_get_ssl_cipher_suites, init_cipher_suites, gpr_log.
  destruct (cipher_suites_once g) eqn:Hsuites; simpl; rewrite Hsuites; simpl;
    (match goal with
     | |- context [create ?o handshaker_factory] => exists o
     end);
    (do 6 (split; [reflexivity|]));
    destruct (create _ _) as [[|description] produced]; simpl.
  all: try (eexists _, []; rewrite app_nil_r; by split_and!).
  all: eexists _, [_]; by split_and!.
Qed.

End FactoriesFurther.

Lemma fill_alpn_protocol_strings_fills_every_slot_witness :
  fst (grpc_fill_alpn_protocol_strings (sample_environment [] [])) !! 1
  = Some "h2".
Proof.
  destruct (fill_alpn_protocol_strings_fills_every_slot
              (sample_environment [] []) 0) as (_ & _ & Hslot & _).
  apply (Hslot 1). simpl. lia.
Defined.


(** ** From a context to a peer and back *)

Section ContextRoundTrip.
Context {K : property_names}.

Lemma auth_property_of_tsi_property_of (q : grpc_auth_property) :
  tsi_names_distinct K →
  omap auth_property_of (option_list (tsi_property_of q))
  = if is_shallow_property q then [q] else [].
Proof.
  intros Htsi. nodup_facts Htsi.
  unfold tsi_property_of, is_shallow_property.
  destruct q as [name value]; cbn [auth_name auth_value].
  destruct (decide (name = GRPC_X509_SAN_PROPERTY_NAME)) as [->|Hsan];
    [decide_names; unfold auth_property_of; by decide_names|].
  destruct (decide (name = GRPC_X509_CN_PROPERTY_NAME)) as [->|Hcn];
    [decide_names; unfold auth_property_of; by decide_names|].
  destruct (decide (name = GRPC_X509_PEM_CERT_PROPERTY_NAME)) as [->|Hpem];
    decide_names; try unfold auth_property_of; by decide_names.
Qed.

Lemma context_round_trip_table (l : list grpc_auth_property) :
  tsi_names_distinct K →
  omap auth_property_of (omap tsi_property_of l)
  = List.filter is_shallow_property l.
Proof.
  intros Htsi. induction l as [|q l IH]; [done|].
  assert (omap tsi_property_of (q :: l)
          = option_list (tsi_property_of q) ++ omap tsi_property_of l)
    as -> by (simpl; by destruct (tsi_property_of q)).
  rewrite omap_app, IH, (auth_property_of_tsi_property_of q Htsi).
  simpl. by destruct (is_shallow_property q).
Qed.

(** X16. From a context to a shallow peer and back: for distinct peer-property
    names, when the context holds a SAN, CN or PEM-certificate property the
    extractor applied to its shallow peer returns the transport-security-type
    property followed by exactly those properties of the context, in their
    order; when it holds none, the shallow peer has no property and the
    extractor aborts on it. *)
Theorem context_round_trip (ctx : grpc_auth_context) :
  tsi_names_distinct K →
  ∃ shallow,
    grpc_shallow_peer_from_ssl_auth_context ctx = Returns shallow
    ∧ (existsb is_shallow_property (auth_properties ctx) = true →
       ∃ ctx',
         grpc_ssl_peer_to_auth_context shallow = Returns ctx'
         ∧ auth_properties ctx'
           = transport_security_type_property
             :: List.filter is_shallow_property (auth_properties ctx))
    ∧ (existsb is_shallow_property (auth_properties ctx) = false →
       property_count shallow = 0
       ∧ grpc_ssl_peer_to_auth_context shallow
         = Aborts "peer->property_count >= 1").
Proof.
  intros Htsi.
  destruct (grpc_shallow_peer_from_ssl_auth_context_returns ctx)
    as (shallow & Hshallow & Hview & _ & Hcount).
  rewrite length_omap_tsi_property_of in Hcount.
  exists shallow. split; [done|]. split.
  - intros Hsome.
    destruct (grpc_ssl_peer_to_auth_context_properties shallow _ Hview)
      as (ctx' & Hctx' & Hprops & _).
    + rewrite length_omap_tsi_property_of.
      apply existsb_exists in Hsome as (q & Hin & Hq).
      assert (In q (List.filter is_shallow_property (auth_properties ctx)))
        as Hq' by (by apply filter_In).
      destruct (List.filter is_shallow_property (auth_properties ctx));
        [done | simpl; lia].
    + exists ctx'. split; [done|].
      by rewrite Hprops, context_round_trip_table.
  - intros Hnone.
    assert (List.filter is_shallow_property (auth_properties ctx) = [])
      as Hnil.
    { clear -Hnone. induction (auth_properties ctx) as [|q l IH]; [done|].
      simpl in Hnone. apply orb_false_iff in Hnone as [Hq Hl].
      simpl. rewrite Hq. by apply IH. }
    rewrite Hnil in Hcount. simpl in Hcount. split; [done|].
    unfold grpc_ssl_peer_to_auth_context. by rewrite Hcount.
Qed.

End ContextRoundTrip.

Lemma context_round_trip_witness :
  ∃ shallow ctx',
    grpc_shallow_peer_from_ssl_auth_context (K := grpc_header_names)
      sample_cn_context = Returns shallow
    ∧ grpc_ssl_peer_to_auth_context (K := grpc_header_names) shallow
      = Returns ctx'
    ∧ auth_properties ctx' = auth_properties sample_cn_context.
Proof.
  destruct (context_round_trip (K := grpc_header_names) sample_cn_context
              grpc_header_names_tsi_distinct)
    as (shallow & Hshallow & Hsome & _).
  destruct (Hsome eq_refl) as (ctx' & Hctx' & Hprops).
  exists shallow, ctx'. split; [exact Hshallow|]. split; [exact Hctx'|].
  rewrite Hprops. reflexivity.
Defined.
